(** * ContextSummarizer and its test-vector generator

    A shallow embedding of [context_summarizer.py] and of
    [scripts/generate_browser_tests.py], with the properties the
    specification states about them.

    Layout:
    - [PyText]: Python [str] values as lists of code points, slicing and
      [str.join];
    - [Summarizer]: the value-level reading of
      [ContextSummarizer.summarize];
    - [Store]: the same function run against a store of list objects and an
      output log, with Python's exceptions, for the totality and frame
      properties, and [generate_vectors] on the same store;
    - [Samples]: small inputs the instances below evaluate;
    - [Readings]: a few readings of the summarizer's steps used by the
      further laws;
    - [Harness]: the strategy of [tests/strategies.py];
    - [Script]: [write_manifest] and [main] of the generator script;
    - [Model]: [examples/react-web/model.py];
    - [Trials]: sample data for the further laws. *)

From Stdlib Require Import ZArith Lia Ascii String.
From stdpp Require Import base list strings pretty gmap.

Set Warnings "-abstract-large-number".

(** ** Python text *)

Module PyText.

(** A Python [str] is an immutable sequence of Unicode code points; [len]
    counts code points.  A code point is kept as its number. *)
Abbreviation pystr := (list N).

(** A literal of the source, given by its ASCII text. *)
Definition lit (s : string) : pystr :=
  (λ c, N_of_ascii c) <$> list_ascii_of_string s.

(** The newline of ["\n".join(...)]. *)
Definition newline : pystr := [10%N].

(** [s[:n]] for a non-negative bound [n]: the first [n] code points, or all
    of [s] when it is shorter.  Slicing never raises. *)
Definition slice_to (n : nat) (s : pystr) : pystr := take n s.

(** [sep.join(items)]: the items in order, [sep] between consecutive ones,
    nothing before the first or after the last. *)
Fixpoint py_join (sep : pystr) (items : list pystr) : pystr :=
  match items with
  | [] => []
  | x :: rest =>
      match rest with
      | [] => x
      | _ :: _ => x ++ sep ++ py_join sep rest
      end
  end.

(** ["a" * n] *)
Definition py_repeat (c : N) (n : nat) : pystr := replicate n c.

End PyText.

Import PyText.

(** ** Fragments *)

(** [str(x)] for the objects the model keeps opaque (floats, nested
    containers, user classes): every such object has a text form, and
    taking it changes nothing. *)
Class Stringify (Obj : Type) := obj_str : Obj → pystr.

(** One element of the input sequence. *)
Inductive fragment (Obj : Type) : Type :=
  | FNone
  | FText (s : pystr)
  | FInt (z : Z)
  | FBool (b : bool)
  | FOther (o : Obj).

Arguments FNone {Obj}.
Arguments FText {Obj} s.
Arguments FInt {Obj} z.
Arguments FBool {Obj} b.
Arguments FOther {Obj} o.

(** Opaque objects are not needed for plain data. *)
#[export] Instance stringify_empty : Stringify Empty_set :=
  λ o, match o with end.

(** A float kept by its printed form is enough for examples. *)
#[export] Instance stringify_printed : Stringify string := lit.

Module Summarizer.

Section summarizer.
Context {Obj : Type} `{!Stringify Obj}.

(** [chunk is None] *)
Definition is_none (chunk : fragment Obj) : bool :=
  match chunk with FNone => true | _ => false end.

(** The text [str(chunk)] gives when it returns.  Whether it returns is
    [Store.str_error]: the conversion of an integer of more than 4,300
    digits, or of an object whose own conversion fails, raises, and the
    value-level reading below is of the calls in which every conversion
    returns. *)
Definition py_str (chunk : fragment Obj) : pystr :=
  match chunk with
  | FNone => lit "None"
  | FText s => s
  | FInt z => lit (pretty z)
  | FBool true => lit "True"
  | FBool false => lit "False"
  | FOther o => obj_str o
  end.

(** The per-fragment and final bounds of the source. *)
Definition CHUNK_LIMIT : nat := 5000.
Definition SUMMARY_LIMIT : nat := 20000.

(** One turn of [for chunk in chunks]: a null chunk is skipped
    ([continue]); any other is converted, cut and appended to
    [safe_chunks]. *)
Definition loop_body (safe_chunks : list pystr) (chunk : fragment Obj)
  : list pystr :=
  if is_none chunk then safe_chunks
  else
    let text := py_str chunk in
    safe_chunks ++ [slice_to CHUNK_LIMIT text].

(** [safe_chunks] after the loop, started from the empty list. *)
Definition safe_chunks_of (chunks : list (fragment Obj)) : list pystr :=
  foldl loop_body [] chunks.

(** [ContextSummarizer.summarize]; [None] is the null argument. *)
Definition summarize (chunks : option (list (fragment Obj))) : pystr :=
  match chunks with
  | None => []
  | Some chunks =>
      let safe_chunks := safe_chunks_of chunks in
      match safe_chunks with
      | [] => []
      | _ :: _ =>
          let summary := py_join newline safe_chunks in
          slice_to SUMMARY_LIMIT summary
      end
  end.

(** *** The specification's reading of the same steps *)

(** What one fragment contributes: nothing when null, otherwise the first
    5,000 code points of its text form. *)
Definition contribution (chunk : fragment Obj) : option pystr :=
  match chunk with
  | FNone => None
  | _ => Some (take 5000 (py_str chunk))
  end.

(** The surviving texts, in input order. *)
Definition survivors (chunks : list (fragment Obj)) : list pystr :=
  omap contribution chunks.

(** [f1 + "\n" + f2 + ... + "\n" + fn], written out for a non-empty list
    with first element [f1]. *)
Fixpoint joined_after (f1 : pystr) (rest : list pystr) : pystr :=
  match rest with
  | [] => f1
  | f2 :: rest' => f1 ++ newline ++ joined_after f2 rest'
  end.

Definition joined (fs : list pystr) : pystr :=
  match fs with
  | [] => []
  | f1 :: rest => joined_after f1 rest
  end.

(** The length of that text: the lengths of the parts and one separator
    between consecutive parts. *)
Definition joined_length (fs : list pystr) : nat :=
  sum_list (length <$> fs) + (length fs - 1).

End summarizer.

End Summarizer.

Import Summarizer.

(** ** The summarizer against a store *)

(** Python passes a list by reference and [list.append] updates the object
    in place.  Here the list objects live in a store, the calls of the source
    are steps on a [world], and a step either returns or raises. *)

Module Store.

Definition loc := positive.

Inductive pyexn : Type :=
  | TypeError
  | ValueError
  (** any other exception class, by its name *)
  | OtherException (name : string)
  (** reading a reference that names no object: no Python state has one *)
  | Dangling.

(** What [str(x)] raises for an opaque object, if it raises. *)
Class StrErrors (Obj : Type) := obj_str_error : Obj → option pyexn.

#[export] Instance str_errors_empty : StrErrors Empty_set :=
  λ o, match o with end.

(** A float always converts. *)
#[export] Instance str_errors_printed : StrErrors string := λ _, None.

Inductive outcome (A : Type) : Type :=
  | Returned (a : A)
  | Raised (e : pyexn).

Arguments Returned {A} a.
Arguments Raised {A} e.

(** What a run can do to the outside. *)
Inductive io_event : Type :=
  | EvPrint (line : pystr)
  | EvMkdir (path : pystr)
  | EvWriteText (path : pystr) (content : pystr).

Section store.
Context {Obj : Type} `{!Stringify Obj} `{!StrErrors Obj}.
(** [G]: the states of the random source the generator script draws
    from. *)
Context {G : Type}.

Record world : Type := World {
  lists : gmap loc (list (fragment Obj));
  io_log : list io_event;
  rng : G
}.

(** The value bound to the parameter [chunks]. *)
Inductive argument : Type :=
  | ArgNone
  | ArgList (l : loc)
  | ArgText (s : pystr)
  | ArgInt (z : Z)
  | ArgBool (b : bool).

(** The world [w] with the list object at [l] set to [items]. *)
Definition with_list (l : loc) (items : list (fragment Obj)) (w : world)
  : world :=
  World (<[l := items]> (lists w)) (io_log w) (rng w).

Definition run (A : Type) : Type := world → outcome A * world.

Definition ret {A} (a : A) : run A := λ w, (Returned a, w).

Definition raise {A} (e : pyexn) : run A := λ w, (Raised e, w).

Definition bind {A B} (m : run A) (k : A → run B) : run B :=
  λ w, match m w with
       | (Returned a, w') => k a w'
       | (Raised e, w') => (Raised e, w')
       end.

Notation "'let!' x ':=' m 'in' k" := (bind m (λ x, k))
  (at level 10, x name, m at level 100, k at level 200).
Notation "'do!' m 'in' k" := (bind m (λ _, k))
  (at level 10, m at level 100, k at level 200).

(** [[]]: a new list object, at an address no object has. *)
Definition new_list : run loc :=
  λ w, let l := fresh (dom (lists w)) in
       (Returned l, with_list l [] w).

(** The items of the list object at [l]. *)
Definition list_items (l : loc) : run (list (fragment Obj)) :=
  λ w, match lists w !! l with
       | Some items => (Returned items, w)
       | None => (Raised Dangling, w)
       end.

(** [l.append(x)] *)
Definition list_append (l : loc) (x : fragment Obj) : run unit :=
  λ w, match lists w !! l with
       | Some items =>
           (Returned (), with_list l (items ++ [x]) w)
       | None => (Raised Dangling, w)
       end.

(** What [for chunk in chunks] goes through: the items of a list, the
    characters of a string; the other values are not iterable.  The items
    are read when the loop starts: the body of the loop in [summarize]
    appends to [safe_chunks] only, an object of its own. *)
Definition py_iter (chunks : argument) : run (list (fragment Obj)) :=
  match chunks with
  | ArgList l => list_items l
  | ArgText s => ret ((λ c, FText [c]) <$> s)
  | ArgNone | ArgInt _ | ArgBool _ => raise TypeError
  end.

(** The loop: the body once per item, in order; an exception ends it. *)
Fixpoint for_each (items : list (fragment Obj))
    (body : fragment Obj → run unit) : run unit :=
  match items with
  | [] => ret ()
  | chunk :: rest => do! body chunk in for_each rest body
  end.

(** [str.join] accepts only [str] items. *)
Fixpoint str_items (items : list (fragment Obj)) : option (list pystr) :=
  match items with
  | [] => Some []
  | FText s :: rest => cons s <$> str_items rest
  | _ :: _ => None
  end.

Definition join_list (sep : pystr) (l : loc) : run pystr :=
  let! items := list_items l in
  match str_items items with
  | Some texts => ret (py_join sep texts)
  | None => raise TypeError
  end.

Definition arg_is_none (chunks : argument) : bool :=
  match chunks with ArgNone => true | _ => false end.

(** The interpreter's default limit on the digits of an integer it converts
    to text ([sys.int_info.default_max_str_digits]). *)
Definition INT_MAX_STR_DIGITS : Z := 4300.

(** What [str(chunk)] raises, if it raises: [ValueError] for an integer of
    more than [INT_MAX_STR_DIGITS] digits, whatever its own conversion
    raises for an opaque object, nothing for a string, a boolean or
    [None]. *)
Definition str_error (chunk : fragment Obj) : option pyexn :=
  match chunk with
  | FInt z =>
      if decide (10 ^ INT_MAX_STR_DIGITS ≤ Z.abs z)%Z
      then Some ValueError else None
  | FOther o => obj_str_error o
  | FNone | FText _ | FBool _ => None
  end.

(** [str(chunk)] as a step. *)
Definition py_str_run (chunk : fragment Obj) : run pystr :=
  match str_error chunk with
  | Some e => raise e
  | None => ret (py_str chunk)
  end.

(** [ContextSummarizer.summarize], statement by statement. *)
Definition summarize_run (chunks : argument) : run pystr :=
  if arg_is_none chunks then ret []
  else
    let! safe_chunks := new_list in
    let! items := py_iter chunks in
    do! for_each items (λ chunk,
          if is_none chunk then ret ()
          else
            let! text := py_str_run chunk in
            list_append safe_chunks (FText (slice_to CHUNK_LIMIT text))) in
    let! kept := list_items safe_chunks in
    match kept with
    | [] => ret []
    | _ :: _ =>
        let! summary := join_list newline safe_chunks in
        ret (slice_to SUMMARY_LIMIT summary)
    end.

(** The sequence an argument stands for in a world, when it stands for
    one: null, or the items of a list object or of a string. *)
Definition sequence_of (w : world) (chunks : argument)
  : option (option (list (fragment Obj))) :=
  match chunks with
  | ArgNone => Some None
  | ArgList l => Some <$> lists w !! l
  | ArgText s => Some (Some ((λ c, FText [c]) <$> s))
  | ArgInt _ | ArgBool _ => None
  end.

(** Null or iterable. *)
Definition null_or_iterable (w : world) (chunks : argument) : bool :=
  bool_decide (is_Some (sequence_of w chunks)).

(** [str] returns for the fragment. *)
Definition converts (chunk : fragment Obj) : bool :=
  match str_error chunk with None => true | Some _ => false end.

(** [str] returns for every fragment of the sequence the argument stands
    for. *)
Definition all_convert (w : world) (chunks : argument) : bool :=
  match sequence_of w chunks with
  | Some (Some items) => forallb converts items
  | _ => true
  end.

(** The loop on values, conversions that raise included: the texts kept
    when it ends, and the exception that ended it, if one did. *)
Fixpoint loop_outcome (acc : list pystr) (items : list (fragment Obj))
  : list pystr * option pyexn :=
  match items with
  | [] => (acc, None)
  | chunk :: rest =>
      if is_none chunk then loop_outcome acc rest
      else match str_error chunk with
           | Some e => (acc, Some e)
           | None =>
               loop_outcome (acc ++ [slice_to CHUNK_LIMIT (py_str chunk)]) rest
           end
  end.

(** *** The generator script *)

(** [text_list_strategy.example()]: one draw from the random source, which
    moves on, and a new list object holding the drawn texts.  The strategy
    is Hypothesis's, not this repository's: that a draw is a function of a
    state of the source, and that it hands out a list object of its own,
    are assumptions about the library, not read off the script. *)
Context (example : G → list pystr * G).

Definition example_draw : run loc :=
  λ w, let '(texts, g) := example (rng w) in
       let l := fresh (dom (lists w)) in
       (Returned l, World (<[l := FText <$> texts]> (lists w)) (io_log w) g).

(** One test vector; [input] is the list object that was summarized. *)
Record test_vector : Type := TestVector {
  id : pystr;
  input : loc;
  expected_output : pystr
}.

Definition VECTOR_COUNT : Z := 50.

(** [range(count)] *)
Definition py_range (count : Z) : list Z := seqZ 0 count.

(** [f"vector_{idx}"] *)
Definition vector_id (idx : Z) : pystr := lit "vector_" ++ lit (pretty idx).

(** The loop of [generate_vectors] over the indices still to come. *)
Fixpoint vectors_loop (idxs : list Z) (vectors : list test_vector)
  : run (list test_vector) :=
  match idxs with
  | [] => ret vectors
  | idx :: rest =>
      let! chunks := example_draw in
      let! expected := summarize_run (ArgList chunks) in
      vectors_loop rest
        (vectors ++ [TestVector (vector_id idx) chunks expected])
  end.

(** [generate_vectors(count)]; without an argument [count] is
    [VECTOR_COUNT]. *)
Definition generate_vectors (count : option Z) : run (list test_vector) :=
  vectors_loop (py_range (default VECTOR_COUNT count)) [].

(** *** The specification's reading of the generator *)

(** A vector whose [input] is a list object of [w] and whose
    [expected_output] is the summary of its items. *)
Definition vector_ok (w : world) (v : test_vector) : Prop :=
  ∃ items, lists w !! input v = Some items ∧
           expected_output v = summarize (Some items).

(** A vector as the manifest shows it: its id, the items of its input (if
    the object is there) and its expected output. *)
Definition vector_view (w : world) (v : test_vector)
  : pystr * option (list (fragment Obj)) * pystr :=
  (id v, lists w !! input v, expected_output v).

(** For each index in turn: draw one input sequence, compute its summary,
    give it the identifier of the index. *)
Fixpoint drawn_vectors (idxs : list Z) (g : G)
  : list (pystr * option (list (fragment Obj)) * pystr) * G :=
  match idxs with
  | [] => ([], g)
  | idx :: rest =>
      let '(texts, g1) := example g in
      let '(views, g2) := drawn_vectors rest g1 in
      ((vector_id idx, Some (FText <$> texts),
        summarize (Some (FText <$> texts))) :: views, g2)
  end.

End store.

Arguments world : clear implicits.
Arguments run : clear implicits.

End Store.

Import Store.

(** ** Sample data *)

Module Samples.

(** A list object at address 1 with a null, a number, a boolean and a
    10,000-character text; nothing printed; no random source. *)
Definition mixed_items : list (fragment Empty_set) :=
  [FNone; FInt 3; FBool false; FText (py_repeat 97 10000)].

Definition mixed_world : world Empty_set unit :=
  World {[ 1%positive := mixed_items ]} [] ().

(** A list object at address 1 with one integer of 4,301 digits. *)
Definition long_int_world : world Empty_set unit :=
  World {[ 1%positive := [FInt (10 ^ 4300)] ]} [] ().

(** [[None, "hello", 7, "world"]] and what survives of it. *)
Definition greeting : list (fragment Empty_set) :=
  [FNone; FText (lit "hello"); FInt 7; FText (lit "world")].

Definition greeting_survivors : list pystr :=
  [lit "hello"; lit "7"; lit "world"].

(** A toy random source: the state is a counter, a draw gives two texts
    that depend on it. *)
Definition counter_draw (g : nat) : list pystr * nat :=
  ([py_repeat 98 g; lit "z"], S g).

(** Two worlds that share the state of the random source and nothing
    else. *)
Definition bare_world : world Empty_set nat := World ∅ [] 2.


Definition busy_world : world Empty_set nat :=
  World {[ 1%positive := [FNone]; 2%positive := [FInt 4] ]}
        [EvPrint (lit "started")] 2.

End Samples.

(** ** Readings used by the further laws *)

Module Readings.

Section readings.
Context {Obj : Type} `{!Stringify Obj}.

(** A fragment with its text in its place: a null stays, anything else
    becomes the [str] it converts to. *)
Definition as_text (chunk : fragment Obj) : fragment Obj :=
  if is_none chunk then FNone else FText (py_str chunk).

(** The test [chunk is not None] as a predicate on fragments. *)
Definition not_none (chunk : fragment Obj) : Prop := is_none chunk = false.

End readings.

#[export] Instance not_none_dec {Obj : Type} (chunk : fragment Obj)
  : Decision (not_none chunk) := decide (is_none chunk = false).

(** The length the summary has before the final cut: every non-null
    fragment counts for at most 5,000, and one separator stands between
    consecutive ones. *)
Definition uncut_length {Obj : Type} `{!Stringify Obj}
    (chunks : list (fragment Obj)) : nat :=
  sum_list ((λ c, length (py_str c) `min` 5000) <$> filter not_none chunks)
  + (length (filter not_none chunks) - 1).

(** The characters of a text with a newline between consecutive ones. *)
Fixpoint spaced_out (s : pystr) : pystr :=
  match s with
  | [] => []
  | c :: rest =>
      match rest with
      | [] => [c]
      | _ :: _ => c :: 10%N :: spaced_out rest
      end
  end.

End Readings.

Import Readings.

(** ** The test strategy *)

(** [tests/strategies.py]. *)
Module Harness.

Definition TEXT_MAX_SIZE : nat := 5000.
Definition LIST_MAX_SIZE : nat := 50.

(** [st.lists(st.text(max_size=5000), max_size=50)], as the test that tells
    whether a value is one the strategy can give: a list of at most 50
    texts of at most 5,000 code points each.  (The alphabet of [st.text] is
    left open: what holds below holds for every alphabet.) *)
Definition text_list_strategy (chunks : list pystr) : bool :=
  bool_decide (length chunks ≤ LIST_MAX_SIZE)
  && forallb (λ text : pystr, bool_decide (length text ≤ TEXT_MAX_SIZE)) chunks.

End Harness.

Import Harness.

(** ** The rest of the generator script *)

(** [write_manifest] and [main] of [scripts/generate_browser_tests.py].
    Creating the directory, writing the file and printing are requests to
    the outside, which the outside may refuse; a refused request raises
    [OSError] and the statements after it do not run. *)
Module Script.

Inductive failure : Type :=
  | Inner (e : pyexn)
  | OSError (refused : io_event).

Section script.
Context {Obj : Type} `{!Stringify Obj} `{!StrErrors Obj} {G : Type}.
Context (example : G → list pystr * G).
(** Whether the outside accepts a request, given what it accepted so far. *)
Context (accepts : list io_event → io_event → bool).
(** [datetime.now(timezone.utc).isoformat()] at the call. *)
Context (now : pystr).
(** [OUTPUT_PATH] and [OUTPUT_PATH.parent], as the file system names
    them. *)
Context (OUTPUT_PATH OUTPUT_DIR : pystr).

(** The manifest as the file shows it: the vectors are the views of the
    generated ones, read from the store when the manifest is serialized. *)
Record manifest : Type := Manifest {
  version : pystr;
  generated_at : pystr;
  vectors : list (pystr * option (list (fragment Obj)) * pystr)
}.

(** [json.dumps(manifest, ensure_ascii=False, indent=2)] *)
Context (json_dumps : manifest → pystr).

Definition step (A : Type) : Type := world Obj G → (failure + A) * world Obj G.

Definition step_ret {A} (a : A) : step A := λ w, (inr a, w).

Definition step_bind {A B} (m : step A) (k : A → step B) : step B :=
  λ w, match m w with
       | (inr a, w') => k a w'
       | (inl e, w') => (inl e, w')
       end.

(** A run of the store is a step; what it raises is passed on. *)
Definition lift {A} (m : run Obj G A) : step A :=
  λ w, match m w with
       | (Returned a, w') => (inr a, w')
       | (Raised e, w') => (inl (Inner e), w')
       end.

(** One request to the outside: logged when accepted, [OSError] when
    not. *)
Definition perform (ev : io_event) : step unit :=
  λ w, if accepts (io_log w) ev
       then (inr (), World (lists w) (io_log w ++ [ev]) (rng w))
       else (inl (OSError ev), w).

(** [write_manifest(vectors, path)], for a [path] whose parent is [dir]. *)
Definition write_manifest (vs : list test_vector) (path dir : pystr)
  : step unit :=
  let generated := now in
  step_bind (perform (EvMkdir dir)) (λ _ w,
    let m := Manifest (lit "1.0") generated (vector_view w <$> vs) in
    perform (EvWriteText path (json_dumps m)) w).

(** [f"Wrote {len(vectors)} vectors to {OUTPUT_PATH}"] *)
Definition wrote_line (vs : list test_vector) : pystr :=
  lit "Wrote " ++ lit (pretty (length vs)) ++ lit " vectors to " ++ OUTPUT_PATH.

(** [main()] *)
Definition main : step unit :=
  step_bind (lift (generate_vectors example None)) (λ vs,
  step_bind (write_manifest vs OUTPUT_PATH OUTPUT_DIR) (λ _,
  perform (EvPrint (wrote_line vs)))).

(** *** The start of the script *)




(** *** The requests of a complete run *)

(** What [main] asks of the outside when nothing is refused, for a run that
    starts in [w]: the directory, the manifest of the 50 drawn vectors, the
    line. *)
Definition mkdir_request : io_event := EvMkdir OUTPUT_DIR.

Definition write_request (w : world Obj G) : io_event :=
  EvWriteText OUTPUT_PATH
    (json_dumps
       (Manifest (lit "1.0") now
          (drawn_vectors example (py_range 50) (rng w)).1)).

Definition print_request : io_event :=
  EvPrint (lit "Wrote 50 vectors to " ++ OUTPUT_PATH).

End script.

End Script.

(** ** The demo model *)

Set Warnings "-register-all".

(** [examples/react-web/model.py].  The functions are embedded with their
    control flow, their exceptions and the module state they read and
    write.  Floating-point arithmetic is not: the operations on floats are
    an interface, and nothing below depends on what they compute. *)
Module Model.

(** The arithmetic of Python floats as far as the module uses it. *)
Class Arith (F : Type) : Type := {
  (** a float literal of the source, by its text *)
  float_literal : string → F;
  (** an [int] where a float is expected: the [1]s of [1 / (1 + ...)] *)
  of_int : Z → F;
  fadd : F → F → F;
  fsub : F → F → F;
  fmul : F → F → F;
  fneg : F → F;
  (** [x / y]; no result: [ZeroDivisionError] *)
  fdiv : F → F → option F;
  (** [math.exp]; no result: [OverflowError] *)
  math_exp : F → option F;
  (** [sum] of the products *)
  py_sum : list F → F
}.

Inductive error_kind : Type :=
  | ValueError
  | TypeError
  | IndexError
  | OverflowError
  | ZeroDivisionError
  | PlainException.

(** An exception: its class and [str(e)]. *)
Record pyerror : Type := PyError {
  kind : error_kind;
  message : pystr
}.

Inductive result (A : Type) : Type :=
  | Returned (a : A)
  | Raised (e : pyerror).

Arguments Returned {A} a.
Arguments Raised {A} e.

Section model.
Context {F : Type} `{!Arith F}.

(** What a caller can pass: null, a number, a string, a list. *)
Inductive value : Type :=
  | VNone
  | VNum (x : F)
  | VStr (s : pystr)
  | VList (items : list value).

(** What the interpreter itself raises here. *)
Inductive fault : Type :=
  | NoLen (v : value)
  | NotIterable (v : value)
  | NotSubscriptable (v : value)
  | BadOperand (v : value)
  | OutOfRange
  | MathRange
  | DivisionByZero.

Definition fault_kind (f : fault) : error_kind :=
  match f with
  | NoLen _ | NotIterable _ | NotSubscriptable _ | BadOperand _ => TypeError
  | OutOfRange => IndexError
  | MathRange => OverflowError
  | DivisionByZero => ZeroDivisionError
  end.

(** The text the interpreter gives each of these. *)
Context (fault_text : fault → pystr).

(** The module state: the items of the list [model_weights] names (the list
    is updated in place, the name is never bound again) and the float
    [model_bias] names. *)
Record state : Type := State {
  model_weights : list F;
  model_bias : F
}.

(** The state a fresh import leaves. *)
Definition initial_state : state :=
  State [float_literal "0.5"; float_literal "1.2"; float_literal "-0.3"]
        (float_literal "0.1").

Definition exec (A : Type) : Type := state → result A * state.

Definition ret {A} (a : A) : exec A := λ s, (Returned a, s).

Definition raise {A} (e : pyerror) : exec A := λ s, (Raised e, s).

Definition interpreter_raises {A} (f : fault) : exec A :=
  raise (PyError (fault_kind f) (fault_text f)).

Definition bind {A B} (m : exec A) (k : A → exec B) : exec B :=
  λ s, match m s with
       | (Returned a, s') => k a s'
       | (Raised e, s') => (Raised e, s')
       end.

Notation "'let!' x ':=' m 'in' k" := (bind m (λ x, k))
  (at level 10, x name, m at level 100, k at level 200).
Notation "'do!' m 'in' k" := (bind m (λ _, k))
  (at level 10, m at level 100, k at level 200).

Definition get : exec state := λ s, (Returned s, s).

(** A computation that leaves the state as it finds it. *)
Definition reads {A} (m : exec A) : Prop := ∀ s, (m s).2 = s.

(** A computation that leaves as many weights as it finds. *)
Definition keeps_arity {A} (m : exec A) : Prop :=
  ∀ s, length (model_weights (m s).2) = length (model_weights s).

Definition of_option {A} (f : fault) (o : option A) : exec A :=
  match o with
  | Some a => ret a
  | None => interpreter_raises f
  end.

(** [isinstance(v, list)] *)
Definition is_list (v : value) : bool :=
  match v with VList _ => true | _ => false end.

(** [len(v)] *)
Definition py_len (v : value) : exec nat :=
  match v with
  | VList items => ret (length items)
  | VStr s => ret (length s)
  | VNone | VNum _ => interpreter_raises (NoLen v)
  end.

(** What iterating [v] goes through. *)
Definition py_items (v : value) : exec (list value) :=
  match v with
  | VList items => ret items
  | VStr s => ret ((λ c, VStr [c]) <$> s)
  | VNone | VNum _ => interpreter_raises (NotIterable v)
  end.

(** [v[i]] for [i ≥ 0] *)
Definition py_index (v : value) (i : nat) : exec value :=
  match v with
  | VList items => of_option OutOfRange (items !! i)
  | VStr s => of_option OutOfRange ((λ c, VStr [c]) <$> s !! i)
  | VNone | VNum _ => interpreter_raises (NotSubscriptable v)
  end.

(** [x * v] and [x - v] for a float [x] *)
Definition float_times (x : F) (v : value) : exec F :=
  match v with
  | VNum y => ret (fmul x y)
  | _ => interpreter_raises (BadOperand v)
  end.

Definition float_minus (x : F) (v : value) : exec F :=
  match v with
  | VNum y => ret (fsub x y)
  | _ => interpreter_raises (BadOperand v)
  end.

(** The generator [w * f for w, f in zip(model_weights, features)], run to
    its end or to its first exception. *)
Fixpoint products (pairs : list (F * value)) : exec (list F) :=
  match pairs with
  | [] => ret []
  | (w, f) :: rest =>
      let! p := float_times w f in
      let! ps := products rest in
      ret (p :: ps)
  end.

(** [f"Expected {expected} features, got {got}"] *)
Definition expected_message (expected got : nat) : pystr :=
  lit "Expected " ++ lit (pretty expected) ++ lit " features, got "
  ++ lit (pretty got).

(** [predict_single(features)] *)
Definition predict_single (features : value) : exec F :=
  let! s := get in
  let! n := py_len features in
  if negb (n =? length (model_weights s))
  then raise (PyError ValueError
                (expected_message (length (model_weights s)) n))
  else
    let! fs := py_items features in
    let! ps := products (zip (model_weights s) fs) in
    let result := fadd (py_sum ps) (model_bias s) in
    let! e := of_option MathRange (math_exp (fneg result)) in
    of_option DivisionByZero (fdiv (of_int 1) (fadd (of_int 1) e)).

(** What [predict] returns: one probability, or one per sample. *)
Inductive prediction : Type :=
  | Single (p : F)
  | Batch (ps : list F).

(** The comprehension [[predict_single(sample) for sample in input_data]]. *)
Fixpoint predict_each (samples : list value) : exec (list F) :=
  match samples with
  | [] => ret []
  | sample :: rest =>
      let! p := predict_single sample in
      let! ps := predict_each rest in
      ret (p :: ps)
  end.

(** The body of the [try] of [predict]. *)
Definition predict_body (input_data : value) : exec prediction :=
  match input_data with
  | VList (first :: rest) =>
      if is_list first
      then let! ps := predict_each (first :: rest) in ret (Batch ps)
      else let! p := predict_single input_data in ret (Single p)
  | _ =>
      raise (PyError ValueError (lit "Input must be a non-empty list"))
  end.

(** [except Exception as e: raise Exception(f"Prediction failed: {str(e)}")] *)
Definition prediction_failed (e : pyerror) : pyerror :=
  PyError PlainException (lit "Prediction failed: " ++ message e).

(** [predict(input_data)] *)
Definition predict (input_data : value) : exec prediction :=
  λ s, match predict_body input_data s with
       | (Returned p, s') => (Returned p, s')
       | (Raised e, s') => (Raised (prediction_failed e), s')
       end.

(** A loop over indices: the body once per index, in order, until an
    exception. *)
Fixpoint for_range (idxs : list nat) (body : nat → exec unit) : exec unit :=
  match idxs with
  | [] => ret ()
  | i :: rest => do! body i in for_range rest body
  end.

(** [range(n)] for an [int] and for a length. *)
Definition range_int (n : Z) : list nat := seq 0 (Z.to_nat n).

(** [model_weights[j]], read and written; an index past the end raises
    [IndexError]. *)
Definition weight_at (j : nat) : exec F :=
  λ s, of_option OutOfRange (model_weights s !! j) s.

Definition set_weight (j : nat) (x : F) : exec unit :=
  λ s, if decide (j < length (model_weights s))
       then (Returned (), State (<[j := x]> (model_weights s)) (model_bias s))
       else interpreter_raises OutOfRange s.

(** [model_bias -= delta] *)
Definition bias_minus (delta : F) : exec unit :=
  λ s, (Returned (), State (model_weights s) (fsub (model_bias s) delta)).

(** The body of the loop over the samples, for sample [i]. *)
Definition train_sample (X y : value) (lr : F) (i : nat) : exec unit :=
  let! xi := py_index X i in
  let! prediction := predict_single xi in
  let! yi := py_index y i in
  let! error := float_minus prediction yi in
  let! s := get in
  do! for_range (seq 0 (length (model_weights s))) (λ j,
        let! w := weight_at j in
        let! xi' := py_index X i in
        let! xij := py_index xi' j in
        let! delta := float_times (fmul lr error) xij in
        set_weight j (fsub w delta)) in
  bias_minus (fmul lr error).

(** One turn of the loop over the epochs. *)
Definition train_epoch (X y : value) (lr : F) : exec unit :=
  let! n := py_len X in
  for_range (seq 0 n) (train_sample X y lr).

(** What [train] returns, with the items of the weights list and the bias
    as they are at the return. *)
Record trained : Type := Trained {
  trained_epochs : Z;
  final_weights : list F;
  final_bias : F
}.

(** [train(X, y, epochs, lr)] *)
Definition train (X y : value) (epochs : Z) (lr : F) : exec trained :=
  do! for_range (range_int epochs) (λ _, train_epoch X y lr) in
  let! s := get in
  ret (Trained epochs (model_weights s) (model_bias s)).

End model.

Arguments value : clear implicits.
Arguments state : clear implicits.

End Model.

(** ** Sample data for the further laws *)

Module Trials.

(** A random source within the bounds of the test strategy. *)
Definition bounded_draw (g : nat) : list pystr * nat :=
  ([py_repeat 98 (g `mod` 7); lit "z"], S g).

(** An outside that accepts every request, a clock reading, the two paths
    and a stand-in for the serializer. *)
Definition always (log : list io_event) (ev : io_event) : bool := true.

(** An outside that accepts two requests and refuses the rest. *)
Definition first_two (log : list io_event) (ev : io_event) : bool :=
  bool_decide (length log < 2).

Definition noon : pystr := lit "2024-01-01T12:00:00+00:00".

Definition out_path : pystr := lit "public/test_vectors.json".

Definition out_dir : pystr := lit "public".

Definition dumps (m : Script.manifest (Obj:=Empty_set)) : pystr :=
  Script.version m ++ newline ++ Script.generated_at m.

(** An arithmetic to run the model on: the integers, with stand-ins for
    the literals and for [math.exp]. *)
#[export] Instance integer_arith : Model.Arith Z := {|
  Model.float_literal := λ _, 1%Z;
  Model.of_int := λ z, z;
  Model.fadd := Z.add;
  Model.fsub := Z.sub;
  Model.fmul := Z.mul;
  Model.fneg := Z.opp;
  Model.fdiv := λ x y, if decide (y = 0%Z) then None else Some (x `div` y)%Z;
  Model.math_exp := λ x, if decide (100 < x)%Z then None else Some 1%Z;
  Model.py_sum := foldr Z.add 0%Z
|}.

Definition fault_note (f : Model.fault (F:=Z)) : pystr :=
  match f with
  | Model.NoLen _ => lit "no len"
  | Model.NotIterable _ => lit "not iterable"
  | Model.NotSubscriptable _ => lit "not subscriptable"
  | Model.BadOperand _ => lit "bad operand"
  | Model.OutOfRange => lit "index out of range"
  | Model.MathRange => lit "math range error"
  | Model.DivisionByZero => lit "division by zero"
  end.

Definition fresh_model : Model.state Z := Model.initial_state.

Definition good_sample : Model.value Z :=
  Model.VList [Model.VNum 1%Z; Model.VNum 2%Z; Model.VNum 3%Z].

Definition short_sample : Model.value Z :=
  Model.VList [Model.VNum 1%Z; Model.VNum 2%Z].

Definition targets : Model.value Z := Model.VList [Model.VNum 5%Z].

(** The model after one epoch on [good_sample] with target 5 and rate 2. *)
Definition trained_model : Model.state Z :=
  Model.State [11%Z; 21%Z; 31%Z] 11%Z.

Definition text_input : Model.value Z := Model.VStr (lit "abc").

Definition no_samples : Model.value Z := Model.VList [].

Definition too_short : Model.pyerror :=
  Model.PyError Model.ValueError (lit "Expected 3 features, got 2").

End Trials.

(** * Properties *)

(** ** Text *)

Section text_facts.

Lemma slice_to_length n (s : pystr) : length (slice_to n s) = n `min` length s.
Proof. apply length_take. Qed.

Lemma slice_to_prefix n (s : pystr) : slice_to n s `prefix_of` s.
Proof. apply prefix_take. Qed.

Lemma slice_to_short n (s : pystr) : length s ≤ n → slice_to n s = s.
Proof. apply take_ge. Qed.

End text_facts.

(** ** The loop and the join *)

Section summarizer_facts.
Context {Obj : Type} `{!Stringify Obj}.
Implicit Types (chunk : fragment Obj) (chunks : list (fragment Obj)).
Implicit Types (fs acc : list pystr).

Lemma loop_body_contribution acc chunk :
  loop_body acc chunk = acc ++ option_list (contribution chunk).
Proof.
  unfold loop_body. destruct chunk; simpl; by rewrite ?app_nil_r.
Qed.

(** The loop from any starting list: what was there, then the survivors. *)
Lemma foldl_loop_body acc chunks :
  foldl loop_body acc chunks = acc ++ survivors chunks.
Proof.
  revert acc. induction chunks as [|chunk chunks IH]; intros acc; simpl.
  - by rewrite app_nil_r.
  - rewrite IH, loop_body_contribution, <-app_assoc. f_equal.
    unfold survivors. simpl. by destruct (contribution chunk).
Qed.

Lemma safe_chunks_of_survivors chunks : safe_chunks_of chunks = survivors chunks.
Proof. unfold safe_chunks_of. by rewrite foldl_loop_body. Qed.

Lemma py_join_cons (sep x y : pystr) (rest : list pystr) :
  py_join sep (x :: y :: rest) = x ++ sep ++ py_join sep (y :: rest).
Proof. reflexivity. Qed.

Lemma py_join_joined fs : py_join newline fs = joined fs.
Proof.
  destruct fs as [|f1 rest]; [done|]. simpl joined.
  revert f1. induction rest as [|f2 rest IH]; intros f1; [done|].
  rewrite py_join_cons, IH. done.
Qed.

Lemma joined_after_length f1 rest :
  length (joined_after f1 rest) = joined_length (f1 :: rest).
Proof.
  unfold joined_length. revert f1.
  induction rest as [|f2 rest IH]; intros f1.
  - simpl. lia.
  - cbn [joined_after]. rewrite !length_app, IH. simpl. lia.
Qed.

Lemma joined_length_spec fs : length (joined fs) = joined_length fs.
Proof.
  destruct fs as [|f1 rest]; [done|]. apply joined_after_length.
Qed.

(** The whole function in one equation: the survivors, joined, cut. *)
Lemma summarize_unfold chunks :
  summarize (Some chunks) = take SUMMARY_LIMIT (joined (survivors chunks)).
Proof.
  unfold summarize. rewrite safe_chunks_of_survivors.
  destruct (survivors chunks) as [|f1 rest] eqn:E.
  - cbn [joined]. by rewrite (take_nil SUMMARY_LIMIT).
  - by rewrite py_join_joined.
Qed.

Lemma survivors_app chunks1 chunks2 :
  survivors (chunks1 ++ chunks2) = survivors chunks1 ++ survivors chunks2.
Proof. apply omap_app. Qed.

Lemma survivors_length chunks :
  length (survivors chunks) = length (filter (λ c, is_none c = false) chunks).
Proof.
  induction chunks as [|chunk chunks IH]; [done|].
  rewrite filter_cons. unfold survivors in *.
  destruct chunk; simpl; f_equal; exact IH.
Qed.

End summarizer_facts.

(** ** Laws of the summarizer *)

Section summarizer_laws.
Context {Obj : Type} `{!Stringify Obj}.
Implicit Types (chunk : fragment Obj) (chunks : list (fragment Obj)).
Implicit Types (fs acc : list pystr).

Lemma survivors_bounded chunks :
  Forall (λ f : pystr, length f ≤ 5000) (survivors chunks).
Proof.
  induction chunks as [|chunk chunks IH]; [constructor|].
  unfold survivors in *. destruct chunk; simpl; try done;
    constructor; try done; rewrite length_take; lia.
Qed.

Lemma survivors_nulls n : survivors (replicate n (@FNone Obj)) = [].
Proof. induction n as [|n IH]; [done|]. exact IH. Qed.

Lemma survivors_empty_texts n :
  survivors (replicate n (@FText Obj [])) = replicate n [].
Proof.
  induction n as [|n IH]; [done|].
  cbn [replicate]. unfold survivors in *. cbn [omap list_omap contribution py_str].
  rewrite IH. by rewrite (take_nil 5000).
Qed.

Lemma joined_after_empty_texts n :
  joined_after [] (replicate n []) = replicate n 10%N.
Proof. induction n as [|n IH]; [done|]. simpl. by rewrite IH. Qed.

(** C2. Output bound: whatever the input, null or a sequence, the summary
    has at most 20,000 characters. *)
Theorem summarize_length_bound (chunks : option (list (fragment Obj))) :
  length (summarize chunks) ≤ 20000.
Proof.
  destruct chunks as [chunks|].
  - rewrite summarize_unfold, length_take. apply Nat.le_min_l.
  - simpl. lia.
Qed.

(** C3. Join law: when the surviving fragments [fs] of the input (the
    non-null ones, each cut to at most 5,000 characters, in input order)
    are not empty and their joined length, one newline between
    consecutive ones, is at most 20,000, the summary is exactly
    [f1 + "\n" + f2 + ... + "\n" + fn]. *)
Theorem join_law chunks fs :
  survivors chunks = fs →
  fs ≠ [] →
  joined_length fs ≤ 20000 →
  Forall (λ f : pystr, length f ≤ 5000) fs ∧
  summarize (Some chunks) = joined fs.
Proof.
  intros <- _ Hlen. split; [apply survivors_bounded|].
  rewrite summarize_unfold. apply take_ge.
  by rewrite joined_length_spec.
Qed.

(** C4. Truncation law: a non-null fragment whose text form has length [L]
    adds to [safe_chunks] one text, of length [min L 5000], a prefix of
    the text form; and [summarize(["a" * 6000])] is 5,000 times ["a"]. *)
Theorem truncation_law :
  (∀ acc chunk, chunk ≠ FNone →
     ∃ t : pystr,
       loop_body acc chunk = acc ++ [t] ∧
       length t = length (py_str chunk) `min` 5000 ∧
       t `prefix_of` py_str chunk) ∧
  summarize (Some [@FText Obj (py_repeat 97 6000)]) = py_repeat 97 5000.
Proof.
  split.
  - intros acc chunk Hchunk. exists (slice_to CHUNK_LIMIT (py_str chunk)).
    split; [|split].
    + unfold loop_body. by destruct chunk.
    + rewrite slice_to_length. apply Nat.min_comm.
    + apply slice_to_prefix.
  - vm_compute. reflexivity.
Qed.

(** C5. Empty-input law: the null input, the empty sequence and a sequence
    of nulls only (of any length, [[None, None]] among them) all give the
    empty string. *)
Theorem empty_input_law :
  summarize (Obj:=Obj) None = [] ∧
  summarize (Obj:=Obj) (Some []) = [] ∧
  ∀ n, summarize (Some (replicate n (@FNone Obj))) = [].
Proof.
  split; [done|]. split; [done|]. intros n.
  unfold summarize. by rewrite safe_chunks_of_survivors, survivors_nulls.
Qed.

(** C9. Only null fragments are skipped: a turn of the loop leaves
    [safe_chunks] as it was exactly for a null chunk, so as many texts are
    kept as there are non-null chunks; an empty string is kept, and [n + 1]
    empty strings give [n] separators (up to the cap):
    [summarize(["", ""])] is ["\n"]. *)
Theorem only_null_skipped :
  (∀ acc chunk, loop_body acc chunk = acc ↔ chunk = FNone) ∧
  (∀ chunks, length (safe_chunks_of chunks)
             = length (filter (λ c, is_none c = false) chunks)) ∧
  (∀ acc, loop_body acc (@FText Obj []) = acc ++ [[]]) ∧
  (∀ n, summarize (Some (replicate (S n) (@FText Obj [])))
        = replicate (20000 `min` n) 10%N) ∧
  summarize (Some [@FText Obj []; FText []]) = newline.
Proof.
  split; [|split; [|split; [|split]]].
  - intros acc chunk. rewrite loop_body_contribution. split.
    + intros Heq. destruct chunk; try done; simpl in Heq;
        apply (f_equal length) in Heq; rewrite length_app in Heq;
        simpl in Heq; lia.
    + intros ->. simpl. apply app_nil_r.
  - intros chunks. rewrite safe_chunks_of_survivors. apply survivors_length.
  - intros acc. unfold loop_body, slice_to. cbn [is_none py_str].
    by rewrite take_nil.
  - intros n. rewrite summarize_unfold, survivors_empty_texts.
    cbn [replicate joined]. rewrite joined_after_empty_texts.
    apply take_replicate.
  - reflexivity.
Qed.

(** C10. Prefix law: the summary is a prefix of the full newline-join of
    the truncated non-null fragment texts (nothing, for the null input),
    namely its first 20,000 characters or all of it. *)
Theorem summarize_prefix (chunks : option (list (fragment Obj))) :
  summarize chunks `prefix_of` joined (survivors (default [] chunks)) ∧
  length (summarize chunks)
  = 20000 `min` length (joined (survivors (default [] chunks))).
Proof.
  destruct chunks as [chunks|]; simpl default.
  - rewrite summarize_unfold. split; [apply prefix_take|apply length_take].
  - split; [done|]. cbn [summarize survivors omap list_omap joined length].
    symmetry. apply Nat.min_0_r.
Qed.

End summarizer_laws.

(** ** Runs against the store *)

Section store_facts.
Context {Obj : Type} `{!Stringify Obj} `{!StrErrors Obj} {G : Type}.
Implicit Types (w : world Obj G) (chunks : argument) (l : loc).
Implicit Types (items : list (fragment Obj)) (acc : list pystr).

Lemma with_list_id l items w : lists w !! l = Some items → with_list l items w = w.
Proof.
  intros Hl. destruct w as [ls io g]. unfold with_list. simpl in *.
  by rewrite insert_id.
Qed.

Lemma with_list_twice l items1 items2 w :
  with_list l items2 (with_list l items1 w) = with_list l items2 w.
Proof. unfold with_list. simpl. by rewrite insert_insert_eq. Qed.

Lemma fresh_list_unused w : lists w !! fresh (dom (lists w)) = None.
Proof. apply not_elem_of_dom, is_fresh. Qed.

Lemma fresh_list_other w l items :
  lists w !! l = Some items → l ≠ fresh (dom (lists w)).
Proof. intros Hl ->. by rewrite fresh_list_unused in Hl. Qed.

(** Objects of [w] are untouched by an allocation. *)
Lemma with_list_fresh_frame w items' l items :
  lists w !! l = Some items →
  lists (with_list (fresh (dom (lists w))) items' w) !! l = Some items.
Proof.
  intros Hl. unfold with_list. simpl.
  rewrite lookup_insert_ne; [done|]. symmetry. by eapply fresh_list_other.
Qed.

Lemma str_items_texts acc : str_items (@FText Obj <$> acc) = Some acc.
Proof.
  induction acc as [|s acc IH]; [done|].
  rewrite fmap_cons. cbn [str_items]. by rewrite IH.
Qed.

(** When no conversion raises, the loop keeps what the value-level loop
    keeps. *)
Lemma loop_outcome_kept items : ∀ acc,
  (loop_outcome acc items).2 = None →
  (loop_outcome acc items).1 = foldl loop_body acc items.
Proof.
  induction items as [|chunk items IH]; intros acc; [done|].
  cbn [loop_outcome foldl]. unfold loop_body at 2.
  destruct (is_none chunk); [apply IH|].
  destruct (str_error chunk); [done|]. apply IH.
Qed.

Lemma loop_outcome_converts items : ∀ acc,
  forallb converts items = true → (loop_outcome acc items).2 = None.
Proof.
  induction items as [|chunk items IH]; intros acc; [done|].
  cbn [forallb loop_outcome]. intros [Hchunk Hitems]%andb_true_iff.
  destruct (is_none chunk); [by apply IH|].
  unfold converts in Hchunk. destruct (str_error chunk); [done|].
  by apply IH.
Qed.

Lemma texts_convert (texts : list pystr) :
  forallb converts (@FText Obj <$> texts) = true.
Proof. induction texts as [|t texts IH]; [done|]. exact IH. Qed.

Lemma characters_convert (s : pystr) :
  forallb converts ((λ c, @FText Obj [c]) <$> s) = true.
Proof. induction s as [|c s IH]; [done|]. exact IH. Qed.

(** The loop of [summarize] on the store: it leaves in the list object
    [sc] the texts the loop on values keeps, raises what that loop says,
    and touches nothing else. *)
Lemma for_each_outcome items : ∀ w sc acc,
  lists w !! sc = Some (FText <$> acc) →
  for_each items (λ chunk,
    if is_none chunk then ret ()
    else bind (py_str_run chunk) (λ text,
           list_append sc (FText (slice_to CHUNK_LIMIT text)))) w
  = (match (loop_outcome acc items).2 with
     | Some e => Raised e
     | None => Returned ()
     end,
     with_list sc (FText <$> (loop_outcome acc items).1) w).
Proof.
  induction items as [|chunk items IH]; intros w sc acc Hsc.
  - simpl. unfold ret. by rewrite with_list_id.
  - cbn [for_each loop_outcome]. unfold bind at 1.
    destruct (is_none chunk).
    + unfold ret at 1. by apply IH.
    + unfold bind at 1, py_str_run. destruct (str_error chunk) as [e|].
      * unfold raise. cbn [fst snd]. by rewrite with_list_id.
      * unfold ret at 1. unfold list_append at 1. rewrite Hsc.
        erewrite IH.
        -- by rewrite with_list_twice.
        -- simpl. rewrite lookup_insert_eq. by rewrite fmap_app.
Qed.

(** A run on an argument that stands for the sequence [items]: it raises
    what the first conversion that fails raises, and otherwise returns the
    value-level summary; the only change is the new list object that held
    [safe_chunks]. *)
Lemma summarize_run_items w chunks items :
  sequence_of w chunks = Some (Some items) →
  summarize_run chunks w
  = (match (loop_outcome [] items).2 with
     | Some e => Raised e
     | None => Returned (summarize (Some items))
     end,
     with_list (fresh (dom (lists w)))
       (FText <$> (loop_outcome [] items).1) w).
Proof.
  intros Hseq.
  assert (arg_is_none chunks = false ∧
          py_iter chunks (with_list (fresh (dom (lists w))) [] w)
          = (Returned items, with_list (fresh (dom (lists w))) [] w))
    as [Hnone Hiter].
  { destruct chunks as [|l|s|z|b]; simpl in Hseq; try done.
    - split; [done|]. cbn [py_iter]. unfold list_items.
      destruct (lists w !! l) as [items'|] eqn:Hl; [|done].
      simpl in Hseq. injection Hseq as ->.
      by rewrite (with_list_fresh_frame w [] l items Hl).
    - injection Hseq as <-. done. }
  unfold summarize_run. rewrite Hnone.
  unfold bind at 1. unfold new_list. fold (with_list (fresh (dom (lists w))) [] w).
  unfold bind at 1. rewrite Hiter.
  unfold bind at 1.
  rewrite (for_each_outcome items _ _ []);
    [|unfold with_list; simpl; by rewrite lookup_insert_eq].
  rewrite with_list_twice.
  pose proof (loop_outcome_kept items []) as Hkept.
  destruct (loop_outcome [] items) as [kept [e|]]; cbn [fst snd] in *; [done|].
  rewrite Hkept by done. fold (safe_chunks_of items).
  unfold bind at 1. unfold list_items at 1.
  unfold with_list at 1. simpl lists. rewrite lookup_insert_eq.
  fold (with_list (fresh (dom (lists w))) (FText <$> safe_chunks_of items) w).
  unfold summarize.
  destruct (safe_chunks_of items) as [|f1 rest] eqn:Hsafe; [done|].
  cbn [fmap list_fmap].
  unfold join_list, bind, list_items. unfold with_list at 1. simpl lists.
  rewrite lookup_insert_eq.
  change (FText f1 :: (FText <$> rest)) with (@FText Obj <$> (f1 :: rest)).
  by rewrite str_items_texts.
Qed.

(** The same when every conversion returns: the value-level summary is
    returned. *)
Lemma summarize_run_sequence w chunks items :
  sequence_of w chunks = Some (Some items) →
  forallb converts items = true →
  summarize_run chunks w
  = (Returned (summarize (Some items)),
     with_list (fresh (dom (lists w))) (FText <$> safe_chunks_of items) w).
Proof.
  intros Hseq Hconv. rewrite (summarize_run_items _ _ _ Hseq).
  pose proof (loop_outcome_kept items []) as Hkept.
  rewrite (loop_outcome_converts items [] Hconv) in *.
  by rewrite Hkept.
Qed.

(** A run on any argument either leaves the world as it was or adds one
    list object at an unused address. *)
Lemma summarize_run_world w chunks :
  (summarize_run chunks w).2 = w ∨
  ∃ items, (summarize_run chunks w).2
           = with_list (fresh (dom (lists w))) items w.
Proof.
  destruct (sequence_of w chunks) as [[items|]|] eqn:Hseq.
  - right. eexists. by rewrite (summarize_run_items _ _ _ Hseq).
  - left. by destruct chunks; simplify_option_eq.
  - right. exists [].
    destruct chunks as [|l|s|z|b]; simpl in Hseq; try done.
    destruct (lists w !! l) as [items|] eqn:Hl; [done|].
    unfold summarize_run, bind, new_list, py_iter, list_items.
    cbn [arg_is_none]. unfold with_list at 1. cbn [lists].
    destruct (decide (fresh (dom (lists w)) = l)) as [<-|Hne].
    + rewrite lookup_insert_eq. cbn [for_each]. unfold ret.
      unfold with_list at 1. cbn [lists]. by rewrite lookup_insert_eq.
    + by rewrite lookup_insert_ne, Hl.
Qed.

(** Arguments that are neither null nor iterable raise [TypeError]. *)
Lemma summarize_run_not_iterable w chunks :
  sequence_of w chunks = None →
  (∀ l, chunks ≠ ArgList l) →
  (summarize_run chunks w).1 = Raised TypeError.
Proof.
  intros Hseq Hl. destruct chunks as [|l|s|z|b]; try done.
  by destruct (Hl l).
Qed.

End store_facts.

(** ** Totality and frame of the summarizer *)

Section store_laws.
Context {Obj : Type} `{!Stringify Obj} `{!StrErrors Obj} {G : Type}.
Implicit Types (w : world Obj G) (chunks : argument) (l : loc).

(** C1, as corrected. Totality: on an argument that is null or iterable (a
    list object of the store or a string) and whose fragments all have a
    text form ([str] returns for each: every string, boolean and null, of
    any length, every integer of at most 4,300 digits, every object whose
    own conversion returns) the call returns a string, the summary of the
    sequence the argument stands for, and does not raise. *)
Theorem summarize_total w chunks :
  null_or_iterable w chunks = true →
  all_convert w chunks = true →
  ∃ seq w',
    sequence_of w chunks = Some seq ∧
    summarize_run chunks w = (Returned (summarize seq), w').
Proof.
  unfold null_or_iterable, all_convert.
  intros [seq Hseq]%bool_decide_eq_true. rewrite Hseq. intros Hconv.
  exists seq. destruct seq as [items|].
  - eexists. split; [done|]. by apply summarize_run_sequence.
  - exists w. split; [done|]. by destruct chunks; simplify_option_eq.
Qed.

(** C8. No side effects: after the call, returned or raised, the output
    log is what it was (no I/O), the random source has not moved, and
    every list object of the store, the input with its fragments among
    them, holds the items it held. *)
Theorem summarize_frame w chunks :
  io_log (summarize_run chunks w).2 = io_log w ∧
  rng (summarize_run chunks w).2 = rng w ∧
  ∀ l items,
    lists w !! l = Some items →
    lists (summarize_run chunks w).2 !! l = Some items.
Proof.
  destruct (summarize_run_world w chunks) as [->|[items' ->]]; [done|].
  split; [done|]. split; [done|]. intros l items.
  apply with_list_fresh_frame.
Qed.

(** X2. The returned value is a function of the items alone: two arguments that
    stand for the same sequence, in any two worlds, give the same outcome. *)
Theorem summarize_by_value w1 w2 chunks1 chunks2 seq :
  sequence_of w1 chunks1 = Some seq →
  sequence_of w2 chunks2 = Some seq →
  (summarize_run chunks1 w1).1 = (summarize_run chunks2 w2).1.
Proof.
  intros H1 H2. destruct seq as [items|].
  - by rewrite (summarize_run_items _ _ _ H1),
               (summarize_run_items _ _ _ H2).
  - by destruct chunks1, chunks2; simplify_option_eq.
Qed.

(** X3. A number or a boolean in the place of the sequence raises
    [TypeError]. *)
Theorem summarize_scalar_raises w :
  (∀ z, (summarize_run (ArgInt z) w).1 = Raised TypeError) ∧
  (∀ b, (summarize_run (ArgBool b) w).1 = Raised TypeError).
Proof. split; intros ?; by apply summarize_run_not_iterable. Qed.

End store_laws.

(** ** The generator *)

Section generator_laws.
Context {Obj : Type} `{!Stringify Obj} `{!StrErrors Obj} {G : Type}.
Context (example : G → list pystr * G).
Implicit Types (w : world Obj G) (l : loc) (idxs : list Z).
Implicit Types (vectors : list test_vector).

Lemma vector_ok_mono w w' v :
  lists w ⊆ lists w' → vector_ok w v → vector_ok w' v.
Proof.
  intros Hsub (items & Hin & Hout). exists items. split; [|done].
  by eapply lookup_weaken.
Qed.

Lemma with_list_fresh_subseteq w items :
  lists w ⊆ lists (with_list (fresh (dom (lists w))) items w).
Proof. apply insert_subseteq, fresh_list_unused. Qed.

Lemma vector_view_mono w w' v items :
  lists w ⊆ lists w' →
  lists w !! input v = Some items →
  vector_view w' v = vector_view w v.
Proof.
  intros Hsub Hin. unfold vector_view. rewrite Hin.
  by rewrite (lookup_weaken _ _ _ _ Hin Hsub).
Qed.

(** The loop of [generate_vectors]: it returns, adding one vector per
    index, in order, each with its identifier and a summary that matches
    its input; the vectors are those of [drawn_vectors], the random source
    ends where the draws leave it, the objects of the store stay and
    nothing is printed. *)
Lemma vectors_loop_spec idxs : ∀ vectors w,
  ∃ new w',
    vectors_loop example idxs vectors w = (Returned (vectors ++ new), w') ∧
    lists w ⊆ lists w' ∧
    io_log w' = io_log w ∧
    id <$> new = vector_id <$> idxs ∧
    Forall (vector_ok w') new ∧
    (vector_view w' <$> new, rng w') = drawn_vectors example idxs (rng w).
Proof.
  induction idxs as [|idx idxs IH]; intros vectors w.
  - exists [], w. by rewrite app_nil_r.
  - cbn [vectors_loop drawn_vectors]. unfold bind at 1. unfold example_draw.
    destruct (example (rng w)) as [texts g].
    set (l := fresh (dom (lists w))).
    set (w1 := World (<[l:=FText <$> texts]> (lists w)) (io_log w) g).
    assert (lists w1 !! l = Some (FText <$> texts)) as Hl
      by apply lookup_insert_eq.
    unfold bind at 1.
    rewrite (summarize_run_sequence w1 (ArgList l) (FText <$> texts));
      [|unfold sequence_of; by rewrite Hl|apply texts_convert].
    set (w2 := with_list _ _ w1).
    set (v := TestVector _ _ _).
    destruct (IH (vectors ++ [v]) w2)
      as (new & w' & Hrun & Hsub & Hio & Hids & Hok & Hviews).
    assert (lists w ⊆ lists w2) as Hsub2.
    { trans (lists w1); [apply insert_subseteq, fresh_list_unused|].
      apply with_list_fresh_subseteq. }
    assert (lists w2 !! input v = Some (FText <$> texts)) as Hv
      by by apply with_list_fresh_frame.
    exists (v :: new), w'. split; [|split; [|split; [|split; [|split]]]].
    + by rewrite Hrun, <-app_assoc.
    + by trans (lists w2).
    + by rewrite Hio.
    + by rewrite !fmap_cons, Hids.
    + constructor; [|done]. apply (vector_ok_mono w2); [done|].
      by exists (FText <$> texts).
    + change (rng w2) with g in Hviews. rewrite <-Hviews, fmap_cons.
      rewrite (vector_view_mono w2 w' v _ Hsub Hv).
      unfold vector_view at 1. by rewrite Hv.
Qed.

Lemma py_range_of_nat (n : nat) : py_range (Z.of_nat n) = Z.of_nat <$> seq 0 n.
Proof.
  unfold py_range, seqZ. rewrite Nat2Z.id.
  apply list_fmap_ext. intros _ i _. lia.
Qed.

(** C6. For every count [n], [generate_vectors(n)] returns an ordered list
    of exactly [n] vectors; the one at index [i] has the id ["vector_i"];
    the [expected_output] of each is the summarizer applied to the list
    object in its [input]; and without an argument the count is 50. *)
Theorem generate_vectors_spec (n : nat) w :
  (∃ vectors w',
     generate_vectors example (Some (Z.of_nat n)) w = (Returned vectors, w') ∧
     length vectors = n ∧
     id <$> vectors
     = (λ i : nat, lit "vector_" ++ lit (pretty (Z.of_nat i))) <$> seq 0 n ∧
     Forall (vector_ok w') vectors) ∧
  generate_vectors example None w = generate_vectors example (Some 50%Z) w.
Proof.
  split; [|done].
  unfold generate_vectors. simpl default.
  destruct (vectors_loop_spec (py_range (Z.of_nat n)) [] w)
    as (new & w' & Hrun & _ & _ & Hids & Hok & _).
  exists new, w'. rewrite py_range_of_nat in Hids.
  split; [done|]. split; [|split; [|done]].
  - apply (f_equal length) in Hids.
    by rewrite !length_fmap, length_seq in Hids.
  - rewrite Hids. by rewrite <-list_fmap_compose.
Qed.

(** A run of [generate_vectors] returns, and what it returns is read off
    [drawn_vectors]. *)
Lemma generate_vectors_views count w :
  ∃ vectors w',
    generate_vectors example count w = (Returned vectors, w') ∧
    (vector_view w' <$> vectors, rng w')
    = drawn_vectors example (py_range (default VECTOR_COUNT count)) (rng w).
Proof.
  unfold generate_vectors.
  destruct (vectors_loop_spec (py_range (default VECTOR_COUNT count)) [] w)
    as (new & w' & Hrun & _ & _ & _ & _ & Hviews).
  by exists new, w'.
Qed.

(** X4. The vectors as the manifest shows them are, index by index, one draw,
    its summary and its id, from the state of the random source, for any
    count; the random source ends where the draws leave it. *)
Theorem generate_vectors_drawn count w :
  ∃ vectors w',
    generate_vectors example count w = (Returned vectors, w') ∧
    vector_view w' <$> vectors
    = (drawn_vectors example (py_range (default VECTOR_COUNT count)) (rng w)).1 ∧
    rng w'
    = (drawn_vectors example (py_range (default VECTOR_COUNT count)) (rng w)).2.
Proof.
  destruct (generate_vectors_views count w) as (vs & w' & Hrun & Hv).
  exists vs, w'. split; [done|]. rewrite <-Hv. done.
Qed.

(** X1. Two runs that start from the same state of the random source, whatever
    else their worlds hold, return vectors with the same ids, inputs and
    expected outputs. *)
Theorem generate_vectors_reproducible count w1 w2 :
  rng w1 = rng w2 →
  ∃ vectors1 w1' vectors2 w2',
    generate_vectors example count w1 = (Returned vectors1, w1') ∧
    generate_vectors example count w2 = (Returned vectors2, w2') ∧
    vector_view w1' <$> vectors1 = vector_view w2' <$> vectors2.
Proof.
  intros Hrng.
  destruct (generate_vectors_views count w1) as (vs1 & w1' & Hrun1 & Hv1).
  destruct (generate_vectors_views count w2) as (vs2 & w2' & Hrun2 & Hv2).
  exists vs1, w1', vs2, w2'. split; [done|]. split; [done|].
  rewrite Hrng in Hv1. rewrite <-Hv2 in Hv1. by injection Hv1.
Qed.

End generator_laws.

(** ** Worked instances *)

(** Each law that carries a hypothesis, applied to a sample input. *)

Import Samples.

Lemma summarize_total_witness :
  null_or_iterable mixed_world (ArgList 1%positive) = true ∧
  all_convert mixed_world (ArgList 1%positive) = true ∧
  ∃ seq w',
    sequence_of mixed_world (ArgList 1%positive) = Some seq ∧
    summarize_run (ArgList 1%positive) mixed_world
    = (Returned (summarize seq), w').
Proof.
  split; [vm_compute; reflexivity|]. split; [vm_compute; reflexivity|].
  apply (summarize_total mixed_world (ArgList 1%positive));
    vm_compute; reflexivity.
Defined.

(** C1, as stated, fails: a list is iterable, an integer is a non-text
    element, and on the list that holds the one integer [10 ** 4300] the
    call raises [ValueError] at [str(chunk)] and returns no string. *)
Lemma summarize_raises_on_long_int :
  null_or_iterable long_int_world (ArgList 1%positive) = true ∧
  (summarize_run (ArgList 1%positive) long_int_world).1 = Raised ValueError ∧
  ¬ ∃ (s : pystr) w',
      summarize_run (ArgList 1%positive) long_int_world = (Returned s, w').
Proof.
  assert ((summarize_run (ArgList 1%positive) long_int_world).1
          = Raised ValueError) as Hraised by (vm_compute; reflexivity).
  split; [vm_compute; reflexivity|]. split; [exact Hraised|].
  intros (s & w' & Hrun). rewrite Hrun in Hraised. cbn [fst] in Hraised.
  discriminate Hraised.
Qed.

Lemma join_law_witness :
  survivors greeting = greeting_survivors ∧
  greeting_survivors ≠ [] ∧
  joined_length greeting_survivors ≤ 20000 ∧
  Forall (λ f : pystr, length f ≤ 5000) greeting_survivors ∧
  summarize (Some greeting) = joined greeting_survivors.
Proof.
  assert (survivors greeting = greeting_survivors) as H1 by reflexivity.
  assert (greeting_survivors ≠ []) as H2 by discriminate.
  assert (joined_length greeting_survivors ≤ 20000) as H3
    by (apply Nat.leb_le; vm_compute; reflexivity).
  split; [exact H1|]. split; [exact H2|]. split; [exact H3|].
  exact (join_law greeting greeting_survivors H1 H2 H3).
Defined.

Lemma truncation_law_witness :
  @FInt Empty_set 12345 ≠ FNone ∧
  ∃ t : pystr,
    loop_body [] (@FInt Empty_set 12345) = [] ++ [t] ∧
    length t = length (py_str (@FInt Empty_set 12345)) `min` 5000 ∧
    t `prefix_of` py_str (@FInt Empty_set 12345).
Proof.
  assert (@FInt Empty_set 12345 ≠ FNone) as H by discriminate.
  split; [exact H|].
  exact (proj1 truncation_law [] (FInt 12345) H).
Defined.

Lemma summarize_frame_witness :
  lists mixed_world !! 1%positive = Some mixed_items ∧
  lists (summarize_run (ArgList 1%positive) mixed_world).2 !! 1%positive
  = Some mixed_items.
Proof.
  assert (lists mixed_world !! 1%positive = Some mixed_items) as H
    by (vm_compute; reflexivity).
  split; [exact H|].
  exact (proj2 (proj2 (summarize_frame mixed_world (ArgList 1%positive))) 1%positive _ H).
Defined.

Lemma only_null_skipped_witness :
  loop_body [lit "kept"] (@FNone Empty_set) = [lit "kept"] ∧
  @FNone Empty_set = FNone.
Proof.
  assert (loop_body [lit "kept"] (@FNone Empty_set) = [lit "kept"]) as H
    by reflexivity.
  split; [exact H|].
  exact (proj1 (proj1 only_null_skipped [lit "kept"] FNone) H).
Defined.

Lemma summarize_by_value_witness :
  sequence_of bare_world (ArgText (lit "ab"))
  = Some (Some [FText (lit "a"); FText (lit "b")]) ∧
  sequence_of (with_list 3%positive [FText (lit "a"); FText (lit "b")] busy_world)
              (ArgList 3%positive)
  = Some (Some [FText (lit "a"); FText (lit "b")]) ∧
  (summarize_run (ArgText (lit "ab")) bare_world).1
  = (summarize_run (ArgList 3%positive)
       (with_list 3%positive [FText (lit "a"); FText (lit "b")] busy_world)).1.
Proof.
  split; [reflexivity|].
  assert (sequence_of
            (with_list 3%positive [FText (lit "a"); FText (lit "b")] busy_world)
            (ArgList 3%positive)
          = Some (Some [FText (lit "a"); FText (lit "b")])) as H
    by (vm_compute; reflexivity).
  split; [exact H|].
  exact (summarize_by_value bare_world _ (ArgText (lit "ab")) (ArgList 3%positive)
           _ eq_refl H).
Defined.

Lemma generate_vectors_reproducible_witness :
  rng bare_world = rng busy_world ∧
  ∃ vectors1 w1' vectors2 w2',
    generate_vectors counter_draw (Some 3%Z) bare_world
    = (Returned vectors1, w1') ∧
    generate_vectors counter_draw (Some 3%Z) busy_world
    = (Returned vectors2, w2') ∧
    vector_view w1' <$> vectors1 = vector_view w2' <$> vectors2.
Proof.
  split; [reflexivity|].
  exact (generate_vectors_reproducible counter_draw (Some 3%Z)
           bare_world busy_world eq_refl).
Defined.


(** ** Scenarios of the specification *)

Example summarize_hello_world :
  summarize (Obj:=Empty_set) (Some [FText (lit "hello"); FText (lit "world")])
  = lit "hello" ++ newline ++ lit "world".
Proof. reflexivity. Qed.

Example summarize_skips_none :
  summarize (Obj:=Empty_set) (Some [FNone; FText (lit "x"); FNone]) = lit "x".
Proof. reflexivity. Qed.

Example summarize_non_text :
  summarize (Some [FInt (-12); FBool true; FOther "1.5"%string])
  = lit "-12" ++ newline ++ lit "True" ++ newline ++ lit "1.5".
Proof. reflexivity. Qed.

Example summarize_run_int_raises :
  (summarize_run (ArgInt 5) mixed_world).1 = Raised TypeError.
Proof. reflexivity. Qed.

Example summarize_run_text_argument :
  (summarize_run (ArgText (lit "abc")) mixed_world).1
  = Returned (lit "a" ++ newline ++ lit "b" ++ newline ++ lit "c").
Proof. vm_compute. reflexivity. Qed.

Example vector_id_17 : vector_id 17 = lit "vector_17".
Proof. reflexivity. Qed.

Example py_range_negative : py_range (-3) = [].
Proof. reflexivity. Qed.

Example generate_two_vectors :
  let '(outcome, w') := generate_vectors counter_draw (Some 2%Z) busy_world in
  match outcome with
  | Returned vectors =>
      vector_view w' <$> vectors
      = [ (lit "vector_0",
           Some [FText (lit "bb"); FText (lit "z")],
           lit "bb" ++ newline ++ lit "z");
          (lit "vector_1",
           Some [FText (lit "bbb"); FText (lit "z")],
           lit "bbb" ++ newline ++ lit "z") ]
      ∧ input <$> vectors = [3%positive; 5%positive]
  | Raised _ => False
  end.
Proof. vm_compute. split; reflexivity. Qed.

(** * Further laws *)

(** ** The summarizer, beyond the stated claims *)

Section summarizer_more.
Context {Obj : Type} `{!Stringify Obj}.
Implicit Types (chunk : fragment Obj) (chunks more : list (fragment Obj)).
Implicit Types (fs gs : list pystr).

Lemma limits_ordered : CHUNK_LIMIT ≤ SUMMARY_LIMIT.
Proof. apply Nat.leb_le. vm_compute. reflexivity. Qed.

Lemma survivors_filter chunks :
  survivors (filter not_none chunks) = survivors chunks.
Proof.
  induction chunks as [|chunk chunks IH]; [done|].
  rewrite filter_cons. unfold not_none at 1.
  destruct chunk; simpl; unfold survivors in *; simpl; by rewrite ?IH.
Qed.

Lemma survivors_as_text chunks :
  survivors (as_text <$> chunks) = survivors chunks.
Proof.
  induction chunks as [|chunk chunks IH]; [done|].
  rewrite fmap_cons. unfold survivors in *.
  destruct chunk; simpl; [exact IH|f_equal; exact IH..].
Qed.

Lemma survivors_filter_map chunks :
  survivors chunks = (λ c, take 5000 (py_str c)) <$> filter not_none chunks.
Proof.
  induction chunks as [|chunk chunks IH]; [done|].
  rewrite filter_cons. unfold not_none at 1. unfold survivors in *.
  destruct chunk; simpl; [exact IH|f_equal; exact IH..].
Qed.

Lemma joined_app fs gs :
  fs ≠ [] → gs ≠ [] →
  joined (fs ++ gs) = joined fs ++ newline ++ joined gs.
Proof.
  intros Hfs Hgs. destruct fs as [|f1 fs]; [done|]. clear Hfs.
  destruct gs as [|g1 gs]; [done|]. clear Hgs. cbn [joined app].
  revert f1. induction fs as [|f2 fs IH]; intros f1; [done|].
  cbn [joined_after app]. rewrite IH. by rewrite <-!app_assoc.
Qed.

Lemma joined_prefix fs gs : joined fs `prefix_of` joined (fs ++ gs).
Proof.
  destruct fs as [|f1 fs]; [apply prefix_nil|].
  destruct gs as [|g1 gs]; [by rewrite app_nil_r|].
  rewrite joined_app by done. by apply prefix_app_r.
Qed.

Lemma take_prefix_mono (n : nat) (s t : pystr) :
  s `prefix_of` t → take n s `prefix_of` take n t.
Proof.
  intros [k ->]. destruct (decide (n ≤ length s)) as [Hle|Hgt].
  - by rewrite take_app_le.
  - rewrite (take_ge s) by lia. rewrite take_app_ge by lia.
    by apply prefix_app_r.
Qed.

(** X5. Null fragments are transparent: dropping them from the input (or,
    read the other way, sprinkling them anywhere) does not change the
    summary. *)
Theorem summarize_ignores_nulls chunks :
  summarize (Some (filter not_none chunks)) = summarize (Some chunks).
Proof. by rewrite !summarize_unfold, survivors_filter. Qed.

(** X6. Conversion is transparent: a fragment and the text [str] gives for
    it are summarized alike, so replacing every non-null fragment by its
    text does not change the summary. *)
Theorem summarize_as_text chunks :
  summarize (Some (as_text <$> chunks)) = summarize (Some chunks).
Proof. by rewrite !summarize_unfold, survivors_as_text. Qed.

(** X7. Appending fragments only extends the summary: the summary of a
    sequence is a prefix of the summary of any longer sequence that starts
    with it. *)
Theorem summarize_extends chunks more :
  summarize (Some chunks) `prefix_of` summarize (Some (chunks ++ more)).
Proof.
  rewrite !summarize_unfold, survivors_app.
  apply take_prefix_mono, joined_prefix.
Qed.

(** X8. The length of the summary: 20,000, or the sum over the non-null
    fragments of [min (len (str chunk)) 5000] plus one per gap between
    them, whichever is smaller. *)
Theorem summarize_length chunks :
  length (summarize (Some chunks)) = 20000 `min` uncut_length chunks.
Proof.
  rewrite summarize_unfold, length_take, joined_length_spec.
  f_equal. unfold joined_length, uncut_length.
  rewrite survivors_filter_map, length_fmap, <-list_fmap_compose.
  f_equal. f_equal. apply list_fmap_ext. intros _ c _. simpl.
  rewrite length_take. apply Nat.min_comm.
Qed.

(** X10. Summarizing a summary again keeps only its first 5,000 characters:
    the function applied to the one-element list of its own result cuts
    it as it cuts any fragment, and gives it back unchanged only when it has
    at most 5,000 characters. *)
Theorem summarize_again (seq : option (list (fragment Obj))) :
  summarize (Some [@FText Obj (summarize seq)]) = take 5000 (summarize seq) ∧
  (length (summarize seq) ≤ 5000 ↔
   summarize (Some [@FText Obj (summarize seq)]) = summarize seq).
Proof.
  assert (summarize (Some [@FText Obj (summarize seq)])
          = take 5000 (summarize seq)) as Heq.
  { rewrite summarize_unfold. cbn [survivors omap list_omap contribution
      py_str joined joined_after].
    unfold slice_to. rewrite take_take.
    by rewrite (Nat.min_r SUMMARY_LIMIT 5000 limits_ordered). }
  split; [exact Heq|]. rewrite Heq. split.
  - apply take_ge.
  - intros Htake. apply (f_equal length) in Htake.
    rewrite length_take in Htake. lia.
Qed.

(** X11. Concatenation: when both parts of an input have a non-null
    fragment and their two joined texts with a separator between fit in
    20,000 characters, the summary of the concatenation is the two
    summaries with a newline between them. *)
Theorem summarize_app chunks more :
  survivors chunks ≠ [] →
  survivors more ≠ [] →
  joined_length (survivors chunks) + 1 + joined_length (survivors more)
  ≤ 20000 →
  summarize (Some (chunks ++ more))
  = summarize (Some chunks) ++ newline ++ summarize (Some more).
Proof.
  intros H1 H2 Hlen. rewrite !summarize_unfold, survivors_app.
  rewrite joined_app by done.
  rewrite <-!joined_length_spec in Hlen. fold SUMMARY_LIMIT in Hlen.
  rewrite !take_ge; [done|lia|lia|].
  rewrite !length_app. simpl. lia.
Qed.

End summarizer_more.

(** ** A string in the place of the sequence *)

Section text_argument.
Context {Obj : Type} `{!Stringify Obj} `{!StrErrors Obj} {G : Type}.
Implicit Types (w : world Obj G) (s : pystr).

Lemma one_le_chunk_limit : 1 ≤ CHUNK_LIMIT.
Proof. apply Nat.leb_le. vm_compute. reflexivity. Qed.

Lemma survivors_characters s :
  survivors ((λ c, @FText Obj [c]) <$> s) = (λ c, [c]) <$> s.
Proof.
  induction s as [|c s IH]; [done|].
  rewrite !fmap_cons. unfold survivors in *.
  cbn [omap list_omap contribution py_str]. rewrite IH.
  by rewrite (take_ge [c] 5000 one_le_chunk_limit).
Qed.

Lemma joined_characters s : joined ((λ c, [c]) <$> s) = spaced_out s.
Proof.
  destruct s as [|c s]; [done|]. rewrite fmap_cons. cbn [joined].
  revert c. induction s as [|d s IH]; intros c; [done|].
  rewrite fmap_cons.
  change (spaced_out (c :: d :: s)) with (c :: 10%N :: spaced_out (d :: s)).
  cbn [joined_after]. by rewrite IH.
Qed.

Lemma spaced_out_length s : length (spaced_out s) = 2 * length s - 1.
Proof.
  destruct s as [|c s]; [done|].
  revert c. induction s as [|d s IH]; intros c; [done|].
  change (spaced_out (c :: d :: s)) with (c :: 10%N :: spaced_out (d :: s)).
  cbn [length]. rewrite (IH d). simpl. lia.
Qed.

(** X9. A plain string passed as [chunks] is taken character by
    character: the call returns the characters with a newline between
    consecutive ones, cut to 20,000, so a string of [n ≥ 1] characters
    comes back with [min 20000 (2n - 1)] characters and not as it was. *)
Theorem summarize_text_argument w s :
  (summarize_run (ArgText s) w).1 = Returned (take 20000 (spaced_out s)) ∧
  length (take 20000 (spaced_out s)) = 20000 `min` (2 * length s - 1).
Proof.
  split.
  - rewrite (summarize_run_sequence w (ArgText s) _ eq_refl
               (characters_convert s)).
    cbn [fst].
    by rewrite summarize_unfold, survivors_characters, joined_characters.
  - by rewrite length_take, spaced_out_length.
Qed.

(** X13. What a call leaves in the store: nothing for the null argument,
    and otherwise exactly one new list object, at an address that was
    free; no object is removed. *)
Theorem summarize_allocates w chunks :
  (chunks = ArgNone → (summarize_run chunks w).2 = w) ∧
  (chunks ≠ ArgNone →
   dom (lists (summarize_run chunks w).2)
   = {[ fresh (dom (lists w)) ]} ∪ dom (lists w)).
Proof.
  split; [by intros ->|]. intros Hne.
  destruct (sequence_of w chunks) as [[items|]|] eqn:Hseq.
  - rewrite (summarize_run_items _ _ _ Hseq). cbn [snd with_list lists].
    apply dom_insert_L.
  - destruct chunks; simplify_option_eq.
  - destruct chunks as [|l|s|z|b]; try done; simpl in Hseq.
    + destruct (lists w !! l) as [items|] eqn:Hl; [done|].
      unfold summarize_run, bind, new_list, py_iter, list_items.
      cbn [arg_is_none]. unfold with_list at 1. cbn [lists].
      destruct (decide (fresh (dom (lists w)) = l)) as [<-|Hfresh].
      * rewrite lookup_insert_eq. cbn [for_each]. unfold ret.
        unfold with_list at 1. cbn [lists]. rewrite lookup_insert_eq.
        simpl. apply dom_insert_L.
      * rewrite lookup_insert_ne, Hl by done. simpl. apply dom_insert_L.
    + simpl. apply dom_insert_L.
    + simpl. apply dom_insert_L.
Qed.

End text_argument.

(** ** Inputs of the strategy *)

Section strategy_laws.
Context {Obj : Type} `{!Stringify Obj}.
Implicit Types (texts : list pystr).

Lemma text_list_strategy_spec texts :
  text_list_strategy texts = true ↔
  length texts ≤ 50 ∧ Forall (λ t : pystr, length t ≤ 5000) texts.
Proof.
  unfold text_list_strategy.
  rewrite andb_true_iff, bool_decide_eq_true, forallb_forall, Forall_forall.
  split; intros [Hlen Hall]; (split; [exact Hlen|]); intros t Ht.
  - apply list_elem_of_In in Ht. specialize (Hall t Ht).
    by apply bool_decide_eq_true in Hall.
  - apply bool_decide_eq_true, Hall, list_elem_of_In, Ht.
Qed.

Lemma survivors_short_texts texts :
  Forall (λ t : pystr, length t ≤ 5000) texts →
  survivors (@FText Obj <$> texts) = texts.
Proof.
  induction 1 as [|t texts Ht _ IH]; [done|].
  rewrite fmap_cons. unfold survivors in *.
  cbn [omap list_omap contribution py_str]. rewrite IH.
  by rewrite (take_ge t 5000 Ht).
Qed.

Lemma sum_list_bounded texts :
  Forall (λ t : pystr, length t ≤ 5000) texts →
  sum_list (length <$> texts) ≤ length texts * 5000.
Proof.
  induction 1 as [|t texts Ht _ IH]; [simpl; lia|].
  change (sum_list (length <$> t :: texts))
    with (length t + sum_list (length <$> texts)).
  change (length (t :: texts)) with (S (length texts)). lia.
Qed.

(** What the strategy gives is summarized without any per-fragment cut:
    the summary is the first 20,000 characters of the plain newline-join of
    the texts. *)
Lemma strategy_summary texts :
  text_list_strategy texts = true →
  summarize (Some (@FText Obj <$> texts)) = take 20000 (joined texts).
Proof.
  intros [_ Hall]%text_list_strategy_spec.
  by rewrite summarize_unfold, survivors_short_texts.
Qed.

(** X12. For every list the test strategy can give, no fragment is cut:
    the summary is the first 20,000 characters of the plain newline-join of
    the texts, a join that has at most [50 * 5000 + 49] characters, so only
    the final cap can shorten the output. *)
Theorem strategy_inputs_uncut texts :
  text_list_strategy texts = true →
  summarize (Some (@FText Obj <$> texts)) = take 20000 (joined texts) ∧
  length (joined texts) ≤ 50 * 5000 + 49.
Proof.
  intros Hin. split; [by apply strategy_summary|].
  apply text_list_strategy_spec in Hin as [Hlen Hall].
  rewrite joined_length_spec. unfold joined_length.
  pose proof (sum_list_bounded texts Hall) as Hsum.
  assert (length texts * 5000 ≤ 50 * 5000) by by apply Nat.mul_le_mono_r.
  lia.
Qed.

End strategy_laws.

(** ** More on the generator *)

Section generator_more.
Context {Obj : Type} `{!Stringify Obj} `{!StrErrors Obj} {G : Type}.
Context (example : G → list pystr * G).
Implicit Types (w : world Obj G) (l : loc) (idxs : list Z) (g : G).
Implicit Types (vectors : list test_vector).

Lemma py_range_nonpositive (count : Z) : (count ≤ 0)%Z → py_range count = [].
Proof.
  intros Hle. unfold py_range, seqZ.
  replace (Z.to_nat count) with 0 by lia. done.
Qed.

Lemma py_range_le (m n : Z) :
  (m ≤ n)%Z → ∃ later, py_range n = py_range m ++ later.
Proof.
  intros Hle. destruct (decide (m ≤ 0)%Z) as [Hm|Hm].
  - rewrite (py_range_nonpositive m Hm). by eexists.
  - exists (seqZ m (n - m)). unfold py_range.
    replace n with (m + (n - m))%Z at 1 by lia.
    rewrite seqZ_app by lia. by rewrite Z.add_0_l.
Qed.

Lemma drawn_vectors_app idxs1 idxs2 g :
  (drawn_vectors (Obj:=Obj) example (idxs1 ++ idxs2) g).1
  = (drawn_vectors example idxs1 g).1
    ++ (drawn_vectors example idxs2 (drawn_vectors (Obj:=Obj) example idxs1 g).2).1.
Proof.
  revert g. induction idxs1 as [|idx idxs1 IH]; intros g; [done|].
  cbn [app drawn_vectors]. destruct (example g) as [texts g1].
  specialize (IH g1).
  destruct (drawn_vectors example (idxs1 ++ idxs2) g1) as [views12 g12].
  destruct (drawn_vectors example idxs1 g1) as [views1 g2].
  cbn [fst snd app] in *. by rewrite IH.
Qed.

(** X14. A count of zero or less gives no vector and leaves the world as it
    was: nothing is drawn, allocated or printed. *)
Theorem generate_vectors_nonpositive (count : Z) w :
  (count ≤ 0)%Z →
  generate_vectors example (Some count) w = (Returned [], w).
Proof.
  intros Hle. unfold generate_vectors. simpl default.
  by rewrite py_range_nonpositive.
Qed.

(** X16. Asking for more vectors keeps the earlier ones: from the same
    state of the random source, the vectors of a run with a smaller count
    are, as the manifest shows them, a prefix of those of a run with a
    larger count. *)
Theorem generate_vectors_prefix (m n : Z) w1 w2 :
  (m ≤ n)%Z →
  rng w1 = rng w2 →
  ∃ vectors1 w1' vectors2 w2',
    generate_vectors example (Some m) w1 = (Returned vectors1, w1') ∧
    generate_vectors example (Some n) w2 = (Returned vectors2, w2') ∧
    vector_view w1' <$> vectors1 `prefix_of` vector_view w2' <$> vectors2.
Proof.
  intros Hle Hrng.
  destruct (generate_vectors_views example (Some m) w1)
    as (vs1 & w1' & Hrun1 & Hv1).
  destruct (generate_vectors_views example (Some n) w2)
    as (vs2 & w2' & Hrun2 & Hv2).
  exists vs1, w1', vs2, w2'. split; [done|]. split; [done|].
  simpl default in *. destruct (py_range_le m n Hle) as [later Hlater].
  apply (f_equal fst) in Hv1, Hv2. cbn [fst] in Hv1, Hv2.
  rewrite Hv1, Hv2, Hlater, drawn_vectors_app, Hrng.
  by apply prefix_app_r.
Qed.

(** X17. When the random source only gives what the test strategy can give
    (at most 50 texts of at most 5,000 characters), the expected output of
    every vector is the first 20,000 characters of the plain newline-join of
    its input texts: no text of a vector is cut on its own. *)
Theorem generate_vectors_uncut count w :
  (∀ g, text_list_strategy (example g).1 = true) →
  ∃ vectors w',
    generate_vectors example count w = (Returned vectors, w') ∧
    Forall (λ v, ∃ texts,
              lists w' !! input v = Some (FText <$> texts) ∧
              expected_output v = take 20000 (joined texts)) vectors.
Proof.
  intros Hstrategy.
  destruct (generate_vectors_views example count w)
    as (vs & w' & Hrun & Hviews).
  exists vs, w'. split; [done|].
  apply (f_equal fst) in Hviews. cbn [fst] in Hviews.
  assert (∀ idxs g,
    Forall (λ view : pystr * option (list (fragment Obj)) * pystr,
              ∃ texts, view.1.2 = Some (FText <$> texts) ∧
                       view.2 = take 20000 (joined texts))
           (drawn_vectors example idxs g).1) as Hdrawn.
  { induction idxs as [|idx idxs IH]; intros g; [constructor|].
    cbn [drawn_vectors]. pose proof (Hstrategy g) as Hg.
    destruct (example g) as [texts g1]. specialize (IH g1).
    destruct (drawn_vectors example idxs g1) as [views g2].
    constructor; [|exact IH]. exists texts. split; [done|].
    cbn [snd]. by apply strategy_summary. }
  specialize (Hdrawn (py_range (default VECTOR_COUNT count)) (rng w)).
  rewrite <-Hviews, Forall_fmap in Hdrawn.
  eapply Forall_impl; [exact Hdrawn|]. intros v (texts & Hin & Hout).
  by exists texts.
Qed.

End generator_more.

(** ** The script: writing the manifest *)

Section script_laws.
Context {Obj : Type} `{!Stringify Obj} `{!StrErrors Obj} {G : Type}.
Context (example : G → list pystr * G).
Context (accepts : list io_event → io_event → bool).
Context (now OUTPUT_PATH OUTPUT_DIR : pystr).
Context (json_dumps : Script.manifest (Obj:=Obj) → pystr).
Implicit Types (w : world Obj G).

Local Abbreviation mkdir_request := (Script.mkdir_request OUTPUT_DIR).
Local Abbreviation write_request :=
  (Script.write_request example now OUTPUT_PATH json_dumps).
Local Abbreviation print_request := (Script.print_request OUTPUT_PATH).
Local Abbreviation main :=
  (Script.main example accepts now OUTPUT_PATH OUTPUT_DIR json_dumps).

(** [main] after its call of [generate_vectors]: 50 vectors, nothing
    requested yet, and what is left to do. *)
Lemma main_generated w :
  ∃ vs w0,
    generate_vectors example None w = (Returned vs, w0) ∧
    io_log w0 = io_log w ∧
    length vs = 50 ∧
    vector_view w0 <$> vs = (drawn_vectors example (py_range 50) (rng w)).1 ∧
    main w
    = Script.step_bind
        (Script.write_manifest accepts now json_dumps vs OUTPUT_PATH OUTPUT_DIR)
        (λ _, Script.perform accepts
                (EvPrint (Script.wrote_line OUTPUT_PATH vs))) w0.
Proof.
  unfold Script.main, generate_vectors. simpl default.
  destruct (vectors_loop_spec example (py_range VECTOR_COUNT) [] w)
    as (vs & w0 & Hrun & _ & Hio & Hids & _ & Hviews).
  exists vs, w0. simpl app in Hrun.
  split; [done|]. split; [done|]. split; [|split].
  - apply (f_equal length) in Hids. rewrite !length_fmap in Hids.
    rewrite Hids. reflexivity.
  - change 50%Z with VECTOR_COUNT. by rewrite <-Hviews.
  - unfold Script.step_bind at 1, Script.lift. by rewrite Hrun.
Qed.

(** [write_manifest] by what the outside accepts. *)
Lemma write_manifest_cases vs path dir w :
  Script.write_manifest accepts now json_dumps vs path dir w
  = let wr := EvWriteText path
                (json_dumps (Script.Manifest (lit "1.0") now
                               (vector_view w <$> vs))) in
    if accepts (io_log w) (EvMkdir dir)
    then if accepts (io_log w ++ [EvMkdir dir]) wr
         then (inr (), World (lists w) (io_log w ++ [EvMkdir dir; wr]) (rng w))
         else (inl (Script.OSError wr),
               World (lists w) (io_log w ++ [EvMkdir dir]) (rng w))
    else (inl (Script.OSError (EvMkdir dir)), w).
Proof.
  unfold Script.write_manifest, Script.step_bind, Script.perform.
  destruct (accepts (io_log w) (EvMkdir dir)); [|done].
  cbn [lists io_log rng].
  change (vector_view (World (lists w) _ _)) with (vector_view w).
  destruct (accepts _ _); [|done]. by rewrite <-app_assoc.
Qed.

(** Every way a run of [main] can go, by what the outside accepts. *)
Lemma main_cases w :
  ∃ done,
    io_log (main w).2 = io_log w ++ done ∧
    ( (main w).1 = inl (Script.OSError mkdir_request) ∧ done = [] ∧
      accepts (io_log w) mkdir_request = false
    ∨ (main w).1 = inl (Script.OSError (write_request w)) ∧
      done = [mkdir_request] ∧
      accepts (io_log w) mkdir_request = true ∧
      accepts (io_log w ++ [mkdir_request]) (write_request w) = false
    ∨ (main w).1 = inl (Script.OSError print_request) ∧
      done = [mkdir_request; write_request w] ∧
      accepts (io_log w) mkdir_request = true ∧
      accepts (io_log w ++ [mkdir_request]) (write_request w) = true ∧
      accepts (io_log w ++ [mkdir_request; write_request w]) print_request
      = false
    ∨ (main w).1 = inr () ∧
      done = [mkdir_request; write_request w; print_request] ∧
      accepts (io_log w) mkdir_request = true ∧
      accepts (io_log w ++ [mkdir_request]) (write_request w) = true ∧
      accepts (io_log w ++ [mkdir_request; write_request w]) print_request
      = true ).
Proof.
  destruct (main_generated w) as (vs & w0 & _ & Hio & Hlen & Hviews & ->).
  assert (Script.wrote_line OUTPUT_PATH vs
          = lit "Wrote 50 vectors to " ++ OUTPUT_PATH) as Hline
    by (unfold Script.wrote_line; by rewrite Hlen).
  unfold Script.step_bind. rewrite write_manifest_cases, Hline, Hviews, Hio.
  fold mkdir_request (write_request w) print_request. cbn zeta.
  destruct (accepts (io_log w) mkdir_request) eqn:Hmk.
  2:{ exists []. cbn [fst snd]. rewrite app_nil_r, Hio.
      split; [done|]. by left. }
  destruct (accepts (io_log w ++ [mkdir_request]) (write_request w)) eqn:Hwr.
  2:{ exists [mkdir_request]. cbn [fst snd io_log]. split; [done|].
      right; by left. }
  unfold Script.perform. cbn [lists io_log rng].
  destruct (accepts (io_log w ++ [mkdir_request; write_request w])
              print_request) eqn:Hpr.
  2:{ exists [mkdir_request; write_request w]. cbn [fst snd io_log].
      split; [done|]. right; right; by left. }
  exists [mkdir_request; write_request w; print_request].
  cbn [fst snd io_log]. rewrite <-app_assoc. split; [done|].
  by repeat right.
Qed.

(** X18. When the outside accepts its three requests, [main] completes and
    has made exactly these, in this order: create [OUTPUT_PATH.parent],
    write to [OUTPUT_PATH] the serialized manifest, whose version is
    ["1.0"], whose time is the clock's reading and whose vectors are the 50
    drawn ones, and print ["Wrote 50 vectors to <OUTPUT_PATH>"]. *)
Theorem main_writes_manifest w :
  accepts (io_log w) (EvMkdir OUTPUT_DIR) = true →
  accepts (io_log w ++ [EvMkdir OUTPUT_DIR])
    (EvWriteText OUTPUT_PATH
       (json_dumps (Script.Manifest (lit "1.0") now
          (drawn_vectors example (py_range 50) (rng w)).1))) = true →
  accepts
    (io_log w ++
     [EvMkdir OUTPUT_DIR;
      EvWriteText OUTPUT_PATH
        (json_dumps (Script.Manifest (lit "1.0") now
           (drawn_vectors example (py_range 50) (rng w)).1))])
    (EvPrint (lit "Wrote 50 vectors to " ++ OUTPUT_PATH)) = true →
  (Script.main example accepts now OUTPUT_PATH OUTPUT_DIR json_dumps w).1
  = inr () ∧
  io_log (Script.main example accepts now OUTPUT_PATH OUTPUT_DIR json_dumps w).2
  = io_log w ++
    [EvMkdir OUTPUT_DIR;
     EvWriteText OUTPUT_PATH
       (json_dumps (Script.Manifest (lit "1.0") now
          (drawn_vectors example (py_range 50) (rng w)).1));
     EvPrint (lit "Wrote 50 vectors to " ++ OUTPUT_PATH)].
Proof.
  intros Hmk Hwr Hpr.
  destruct (main_cases w) as (done & Hlog & Hcases).
  unfold Script.mkdir_request, Script.write_request, Script.print_request in *.
  destruct Hcases
    as [(_ & _ & Hno)|[(_ & _ & _ & Hno)|[(_ & _ & _ & _ & Hno)|(Hr & -> & _)]]];
    [congruence..|].
  by rewrite Hlog.
Qed.

(** X19. [main] stops at the first refusal.  If creating the directory is
    refused, [main] fails with [OSError] for that request and nothing has
    been requested; if the directory is accepted and the write refused, it
    fails with [OSError] for the write and only the directory was made; if
    both are accepted and the print refused, it fails with [OSError] for the
    print after the directory and the write; and it completes only when all
    three requests were accepted.  So a refused request is never followed by
    another, and the line is never printed unless the manifest was
    written. *)
Theorem main_stops_at_refusal w :
  let mk := EvMkdir OUTPUT_DIR in
  let wr :=
    EvWriteText OUTPUT_PATH
      (json_dumps (Script.Manifest (lit "1.0") now
         (drawn_vectors example (py_range 50) (rng w)).1)) in
  let pr := EvPrint (lit "Wrote 50 vectors to " ++ OUTPUT_PATH) in
  let run := Script.main example accepts now OUTPUT_PATH OUTPUT_DIR json_dumps w in
  (accepts (io_log w) mk = false →
   run.1 = inl (Script.OSError mk) ∧ io_log run.2 = io_log w) ∧
  (accepts (io_log w) mk = true →
   accepts (io_log w ++ [mk]) wr = false →
   run.1 = inl (Script.OSError wr) ∧ io_log run.2 = io_log w ++ [mk]) ∧
  (accepts (io_log w) mk = true →
   accepts (io_log w ++ [mk]) wr = true →
   accepts (io_log w ++ [mk; wr]) pr = false →
   run.1 = inl (Script.OSError pr) ∧ io_log run.2 = io_log w ++ [mk; wr]) ∧
  (run.1 = inr () →
   accepts (io_log w) mk = true ∧
   accepts (io_log w ++ [mk]) wr = true ∧
   accepts (io_log w ++ [mk; wr]) pr = true ∧
   io_log run.2 = io_log w ++ [mk; wr; pr]).
Proof.
  intros mk wr pr run.
  destruct (main_cases w) as (made & Hlog & Hcases).
  unfold Script.mkdir_request, Script.write_request, Script.print_request in *.
  fold mk wr pr run in Hlog, Hcases.
  destruct Hcases
    as [(Hr & -> & H1)
       |[(Hr & -> & H1 & H2)
        |[(Hr & -> & H1 & H2 & H3)
         |(Hr & -> & H1 & H2 & H3)]]];
    rewrite ?app_nil_r in Hlog;
    (split; [|split; [|split]]); intros; try congruence; by repeat split.
Qed.

End script_laws.

(** ** The demo model *)

Section model_laws.
Import Model.
Context {F : Type} `{!Arith F}.
Context (fault_text : fault (F:=F) → pystr).
Implicit Types (s : state F) (v features : value F) (items : list (value F)).

Local Abbreviation exec := (Model.exec (F:=F)).
Local Abbreviation predict_single := (Model.predict_single fault_text).
Local Abbreviation predict_each := (Model.predict_each fault_text).
Local Abbreviation predict_body := (Model.predict_body fault_text).
Local Abbreviation predict := (Model.predict fault_text).
Local Abbreviation train_sample := (Model.train_sample fault_text).
Local Abbreviation train_epoch := (Model.train_epoch fault_text).
Local Abbreviation train := (Model.train fault_text).

Lemma reads_ret {A} (a : A) : reads (ret (F:=F) a).
Proof. by intros s. Qed.

Lemma reads_raise {A} e : reads (raise (F:=F) (A:=A) e).
Proof. by intros s. Qed.

Lemma reads_bind {A B} (m : exec A) (k : A → exec B) :
  reads m → (∀ a, reads (k a)) → reads (bind m k).
Proof.
  intros Hm Hk s. unfold bind. specialize (Hm s).
  destruct (m s) as [[a|e] s']; simpl in *; subst; [apply Hk|done].
Qed.

Lemma reads_of_option {A} f (o : option A) :
  reads (of_option fault_text f o).
Proof. destruct o; [apply reads_ret|apply reads_raise]. Qed.

Lemma reads_py_len v : reads (py_len fault_text v).
Proof. destruct v; first [apply reads_ret|apply reads_raise]. Qed.

Lemma reads_py_items v : reads (py_items fault_text v).
Proof. destruct v; first [apply reads_ret|apply reads_raise]. Qed.

Lemma reads_py_index v i : reads (py_index fault_text v i).
Proof.
  destruct v; first [apply reads_of_option|apply reads_raise].
Qed.

Lemma reads_float_times x v : reads (float_times fault_text x v).
Proof. destruct v; first [apply reads_ret|apply reads_raise]. Qed.

Lemma reads_float_minus x v : reads (float_minus fault_text x v).
Proof. destruct v; first [apply reads_ret|apply reads_raise]. Qed.

Lemma reads_products pairs : reads (products fault_text pairs).
Proof.
  induction pairs as [|[w f] pairs IH]; [apply reads_ret|].
  apply reads_bind; [apply reads_float_times|]. intros p.
  apply reads_bind; [exact IH|]. intros ps. apply reads_ret.
Qed.

Lemma reads_predict_single features : reads (predict_single features).
Proof.
  apply reads_bind; [by intros s|]. intros s0.
  apply reads_bind; [apply reads_py_len|]. intros n.
  destruct (negb _); [apply reads_raise|].
  apply reads_bind; [apply reads_py_items|]. intros fs.
  apply reads_bind; [apply reads_products|]. intros ps.
  apply reads_bind; [apply reads_of_option|]. intros e.
  apply reads_of_option.
Qed.

Lemma reads_predict_each samples : reads (predict_each samples).
Proof.
  induction samples as [|sample samples IH]; [apply reads_ret|].
  apply reads_bind; [apply reads_predict_single|]. intros p.
  apply reads_bind; [exact IH|]. intros ps. apply reads_ret.
Qed.

Lemma reads_predict_body v : reads (predict_body v).
Proof.
  destruct v as [| | |[|first rest]]; try apply reads_raise.
  unfold Model.predict_body. destruct (is_list first).
  - apply reads_bind; [apply reads_predict_each|]. intros; apply reads_ret.
  - apply reads_bind; [apply reads_predict_single|]. intros; apply reads_ret.
Qed.

(** The outcome of a computation that reads, with its state. *)
Lemma reads_run {A} (m : exec A) s : reads m → m s = ((m s).1, s).
Proof. intros Hm. rewrite <-(Hm s) at 3. apply surjective_pairing. Qed.

(** [predict_single] on a list of the wrong length. *)
Lemma predict_single_wrong_length items s :
  length items ≠ length (model_weights s) →
  predict_single (VList items) s
  = (Raised (PyError ValueError
               (expected_message (length (model_weights s)) (length items))),
     s).
Proof.
  intros Hne. unfold Model.predict_single, bind, get, py_len, ret.
  apply Nat.eqb_neq in Hne. by rewrite Hne.
Qed.

(** What the interpreter raises is never a [ValueError]. *)
Lemma fault_not_value_error (f : fault (F:=F)) : fault_kind f ≠ ValueError.
Proof. by destruct f. Qed.

Lemma of_option_not_value_error {A} f (o : option A) s e :
  (of_option fault_text f o s).1 = Raised e → kind e ≠ ValueError.
Proof.
  destruct o; simpl; [done|]. intros [= <-]. apply fault_not_value_error.
Qed.

Lemma float_times_not_value_error x v s e :
  (float_times fault_text x v s).1 = Raised e → kind e ≠ ValueError.
Proof.
  destruct v; simpl; try done; by intros [= <-].
Qed.

Lemma products_not_value_error pairs s e :
  (products fault_text pairs s).1 = Raised e → kind e ≠ ValueError.
Proof.
  revert s e. induction pairs as [|[w f] pairs IH]; intros s e; [done|].
  cbn [products]. unfold bind at 1.
  pose proof (float_times_not_value_error w f s) as Hw.
  destruct (float_times fault_text w f s) as [[p|e'] s'].
  - unfold bind. specialize (IH s').
    destruct (products fault_text pairs s') as [[ps|e''] s'']; [done|].
    simpl. intros [= <-]. by apply IH.
  - simpl. intros [= <-]. by apply Hw.
Qed.

(** A failure of [predict_single] on a list of the right length is not a
    [ValueError]. *)
Lemma predict_single_right_length items s e :
  length items = length (model_weights s) →
  (predict_single (VList items) s).1 = Raised e →
  kind e ≠ ValueError.
Proof.
  intros Hlen. unfold Model.predict_single, bind, get, py_len, py_items, ret.
  apply Nat.eqb_eq in Hlen. rewrite Hlen. cbn [negb].
  pose proof (products_not_value_error (zip (model_weights s) items) s) as Hp.
  destruct (products fault_text _ s) as [[ps|e'] s1]; cbn [fst] in *.
  2:{ intros [= <-]. by apply Hp. }
  pose proof (of_option_not_value_error (A:=F) MathRange
    (math_exp (fneg (fadd (py_sum ps) (model_bias s)))) s1) as He.
  destruct (of_option fault_text MathRange _ s1) as [[x|e'] s2]; cbn [fst] in *.
  2:{ intros [= <-]. by apply He. }
  apply of_option_not_value_error.
Qed.

Lemma predict_each_returns samples s ps :
  (predict_each samples s).1 = Returned ps ↔
  Forall2 (λ sample p, (predict_single sample s).1 = Returned p) samples ps.
Proof.
  revert ps. induction samples as [|sample samples IH]; intros ps.
  - simpl. split.
    + intros [= <-]. constructor.
    + by intros ->%Forall2_nil_inv_l.
  - cbn [Model.predict_each]. unfold bind at 1.
    rewrite (reads_run _ s (reads_predict_single sample)).
    destruct (predict_single sample s).1 as [p|e] eqn:Hp.
    + unfold bind. rewrite (reads_run _ s (reads_predict_each samples)).
      destruct (predict_each samples s).1 as [ps'|e] eqn:Hps; cbn [fst].
      * split.
        -- intros [= <-]. constructor; [done|]. by apply IH.
        -- intros (p' & ps'' & Hp' & Hps'' & ->)%Forall2_cons_inv_l.
           apply IH in Hps''. unfold ret. simpl. congruence.
      * split; [done|].
        intros (p' & ps'' & _ & Hps'' & ->)%Forall2_cons_inv_l.
        apply IH in Hps''. congruence.
    + cbn [fst]. split; [done|].
      intros (p' & ps'' & Hp' & _ & ->)%Forall2_cons_inv_l. congruence.
Qed.

Lemma predict_each_fails good bad rest s e :
  Forall (λ sample, ∃ p, (predict_single sample s).1 = Returned p) good →
  (predict_single bad s).1 = Raised e →
  (predict_each (good ++ bad :: rest) s).1 = Raised e.
Proof.
  intros Hgood Hbad. induction Hgood as [|sample good [p Hp] _ IH].
  - cbn [app Model.predict_each]. unfold bind at 1.
    rewrite (reads_run _ s (reads_predict_single bad)). by rewrite Hbad.
  - cbn [app Model.predict_each]. unfold bind at 1.
    rewrite (reads_run _ s (reads_predict_single sample)), Hp.
    unfold bind. rewrite (reads_run _ s (reads_predict_each _)).
    by rewrite IH.
Qed.

Lemma predict_run v s : predict v s = ((predict v s).1, s).
Proof.
  unfold Model.predict.
  rewrite (reads_run _ s (reads_predict_body v)).
  by destruct (predict_body v s).1.
Qed.

Lemma reads_keeps_arity {A} (m : exec A) : reads m → keeps_arity m.
Proof. intros Hm s. by rewrite Hm. Qed.

Lemma keeps_arity_bind {A B} (m : exec A) (k : A → exec B) :
  keeps_arity m → (∀ a, keeps_arity (k a)) → keeps_arity (bind m k).
Proof.
  intros Hm Hk s. unfold bind. specialize (Hm s).
  destruct (m s) as [[a|e] s']; cbn [snd] in *; [|done].
  by rewrite Hk.
Qed.

Lemma keeps_arity_for_range idxs (body : nat → exec ()) :
  (∀ i, keeps_arity (body i)) → keeps_arity (for_range idxs body).
Proof.
  intros Hbody. induction idxs as [|i idxs IH]; [by intros s|].
  by apply keeps_arity_bind.
Qed.

Lemma keeps_arity_set_weight j x : keeps_arity (set_weight fault_text j x).
Proof.
  intros s. unfold set_weight. case_decide; [|done].
  cbn [snd model_weights]. apply length_insert.
Qed.

Lemma keeps_arity_train_sample X y lr i : keeps_arity (train_sample X y lr i).
Proof.
  apply keeps_arity_bind; [apply reads_keeps_arity, reads_py_index|]. intros xi.
  apply keeps_arity_bind; [apply reads_keeps_arity, reads_predict_single|].
  intros p.
  apply keeps_arity_bind; [apply reads_keeps_arity, reads_py_index|]. intros yi.
  apply keeps_arity_bind; [apply reads_keeps_arity, reads_float_minus|].
  intros err.
  apply keeps_arity_bind; [by intros s|]. intros s0.
  apply keeps_arity_bind; [|by intros _ s].
  apply keeps_arity_for_range. intros j.
  apply keeps_arity_bind; [apply reads_keeps_arity; intros s; apply reads_of_option|].
  intros w.
  apply keeps_arity_bind; [apply reads_keeps_arity, reads_py_index|]. intros xi'.
  apply keeps_arity_bind; [apply reads_keeps_arity, reads_py_index|]. intros xij.
  apply keeps_arity_bind; [apply reads_keeps_arity, reads_float_times|].
  intros delta. apply keeps_arity_set_weight.
Qed.

Lemma keeps_arity_train_epoch X y lr : keeps_arity (train_epoch X y lr).
Proof.
  apply keeps_arity_bind; [apply reads_keeps_arity, reads_py_len|]. intros n.
  apply keeps_arity_for_range, keeps_arity_train_sample.
Qed.

Lemma for_range_app idxs1 idxs2 (body : nat → exec ()) s :
  for_range (idxs1 ++ idxs2) body s
  = match for_range idxs1 body s with
    | (Returned _, s') => for_range idxs2 body s'
    | (Raised e, s') => (Raised e, s')
    end.
Proof.
  revert s. induction idxs1 as [|i idxs1 IH]; intros s; [done|].
  cbn [app for_range]. unfold bind.
  destruct (body i s) as [[[]|e] s']; [apply IH|done].
Qed.

Lemma for_range_ext idxs (body1 body2 : nat → exec ()) s :
  (∀ i s', i ∈ idxs → body1 i s' = body2 i s') →
  for_range idxs body1 s = for_range idxs body2 s.
Proof.
  revert s. induction idxs as [|i idxs IH]; intros s Hext; [done|].
  cbn [for_range]. unfold bind. rewrite Hext by left.
  destruct (body2 i s) as [[[]|e] s']; [|done].
  apply IH. intros j s'' Hj. apply Hext. by right.
Qed.

(** X20. [predict_single] checks the number of features and nothing
    else up front: on a list with another number of items than there are
    weights it raises [ValueError] with the text
    ["Expected <weights> features, got <items>"] and leaves the state; on a
    list of the right length whatever it raises is not a [ValueError]. *)
Theorem predict_single_arity items s :
  (length items ≠ length (model_weights s) →
   predict_single (VList items) s
   = (Raised (PyError ValueError
                (lit "Expected " ++ lit (pretty (length (model_weights s)))
                 ++ lit " features, got " ++ lit (pretty (length items)))),
      s)) ∧
  (length items = length (model_weights s) →
   ∀ e, (predict_single (VList items) s).1 = Raised e → kind e ≠ ValueError).
Proof.
  split.
  - apply predict_single_wrong_length.
  - intros Hlen e. by apply predict_single_right_length.
Qed.

(** X21. [predict] never changes the model, and it lets no exception
    through as it is: whatever goes wrong inside, the caller gets a plain
    [Exception] whose text starts with ["Prediction failed: "] followed by
    the text of the original exception. *)
Theorem predict_wraps v s :
  (predict v s).2 = s ∧
  ∀ e, (predict v s).1 = Raised e →
       kind e = PlainException ∧
       ∃ cause, (predict_body v s).1 = Raised cause ∧
                message e = lit "Prediction failed: " ++ message cause.
Proof.
  split; [by rewrite predict_run|].
  intros e. unfold Model.predict.
  destruct (predict_body v s) as [[p|cause] s']; [done|].
  intros [= <-]. split; [done|]. by exists cause.
Qed.

(** X22. What [predict] turns down: a value that is not a list, or the
    empty list, fails with ["Prediction failed: Input must be a non-empty
    list"]; a non-empty list whose first item is not a list is one sample,
    and with another number of items than there are weights it fails with
    ["Prediction failed: Expected <weights> features, got <items>"]. *)
Theorem predict_rejects s :
  (∀ v, is_list v = false ∨ v = VList [] →
        predict v s
        = (Raised (PyError PlainException
                     (lit "Prediction failed: Input must be a non-empty list")),
           s)) ∧
  (∀ first rest,
     is_list first = false →
     length (first :: rest) ≠ length (model_weights s) →
     predict (VList (first :: rest)) s
     = (Raised (PyError PlainException
                  (lit "Prediction failed: Expected "
                   ++ lit (pretty (length (model_weights s)))
                   ++ lit " features, got "
                   ++ lit (pretty (length (first :: rest))))),
        s)).
Proof.
  split.
  - intros v [Hv| ->]; [|done]. by destruct v.
  - intros first rest Hfirst Hlen. unfold Model.predict, Model.predict_body.
    rewrite Hfirst. unfold bind at 1.
    by rewrite (predict_single_wrong_length _ _ Hlen).
Qed.

(** X23. A list whose first item is a list is a batch: [predict] returns
    exactly when [predict_single] returns for every item, and then it
    returns one probability per item, in order, each the one
    [predict_single] gives for that item (so as many as there are
    items). *)
Theorem predict_batch first rest s out :
  is_list first = true →
  (predict (VList (first :: rest)) s).1 = Returned out ↔
  ∃ ps, out = Batch ps ∧
        Forall2 (λ sample p, (predict_single sample s).1 = Returned p)
                (first :: rest) ps.
Proof.
  intros Hfirst. unfold Model.predict, Model.predict_body. rewrite Hfirst.
  unfold bind at 1.
  rewrite (reads_run _ s (reads_predict_each (first :: rest))).
  pose proof (predict_each_returns (first :: rest) s) as Heach.
  destruct (predict_each (first :: rest) s).1 as [ps|e]; cbn [fst].
  - split.
    + intros [= <-]. exists ps. split; [done|]. by apply Heach.
    + intros (ps' & -> & Hps'). apply Heach in Hps'. unfold ret. simpl.
      congruence.
  - split; [done|]. intros (ps' & _ & Hps'). apply Heach in Hps'. congruence.
Qed.

(** X24. A batch fails as a whole: when some item makes [predict_single]
    raise and all the items before it are fine, [predict] raises for the
    batch, with that item's exception wrapped, whatever the items after it
    are; no partial list comes back. *)
Theorem predict_batch_fails first others good bad rest s e :
  first :: others = good ++ bad :: rest →
  is_list first = true →
  Forall (λ sample, ∃ p, (predict_single sample s).1 = Returned p) good →
  (predict_single bad s).1 = Raised e →
  predict (VList (first :: others)) s
  = (Raised (PyError PlainException
               (lit "Prediction failed: " ++ message e)), s).
Proof.
  intros Hsplit Hfirst Hgood Hbad.
  rewrite predict_run. f_equal.
  unfold Model.predict, Model.predict_body. rewrite Hfirst.
  unfold bind at 1.
  rewrite (reads_run _ s (reads_predict_each (first :: others))).
  by rewrite Hsplit, (predict_each_fails good bad rest s e Hgood Hbad).
Qed.

(** X25. Training never changes the number of weights: however [train]
    ends, by returning or by raising, the list of weights has the length it
    had, so the number of features [predict_single] asks for stays the
    same. *)
Theorem train_keeps_arity X y epochs lr s :
  length (model_weights (train X y epochs lr s).2) = length (model_weights s).
Proof.
  revert s. change (keeps_arity (train X y epochs lr)).
  apply keeps_arity_bind.
  - apply keeps_arity_for_range. intros _. apply keeps_arity_train_epoch.
  - intros _. apply keeps_arity_bind; [by intros s|]. by intros s0 s.
Qed.

(** X26. Nothing to train on: with [epochs ≤ 0], or with an empty [X],
    [train] returns at once, the model is untouched and [y] is not even
    looked at. *)
Theorem train_nothing_to_do X y epochs lr s :
  (epochs ≤ 0)%Z ∨ X = VList [] ∨ X = VStr [] →
  train X y epochs lr s
  = (Returned (Trained epochs (model_weights s) (model_bias s)), s).
Proof.
  intros Hnothing.
  assert (for_range (range_int epochs) (λ _, train_epoch X y lr) s
          = (Returned (), s)) as Hloop.
  { destruct Hnothing as [Hle|HX].
    - unfold range_int. by replace (Z.to_nat epochs) with 0 by lia.
    - assert (train_epoch X y lr s = (Returned (), s)) as Hepoch
        by by destruct HX as [-> | ->].
      induction (range_int epochs) as [|i idxs IH]; [done|].
      cbn [for_range]. unfold bind. by rewrite Hepoch. }
  unfold Model.train, bind at 1. by rewrite Hloop.
Qed.

(** X27. No rollback: when a sample makes [predict_single] raise, [train]
    raises that same exception, not wrapped, and the model stays as the
    samples before it left it: exactly the state one epoch over those
    samples alone leaves. *)
Theorem train_no_rollback xs bad more y epochs lr s r s1 e :
  (1 ≤ epochs)%Z →
  train (VList xs) y 1 lr s = (Returned r, s1) →
  (predict_single bad s1).1 = Raised e →
  train (VList (xs ++ bad :: more)) y epochs lr s = (Raised e, s1).
Proof.
  intros Hepochs Hone Hbad.
  assert (for_range (seq 0 (length xs)) (train_sample (VList xs) y lr) s
          = (Returned (), s1)) as Hxs.
  { revert Hone. unfold Model.train, range_int.
    change (Z.to_nat 1) with 1. cbn [seq for_range].
    unfold Model.train_epoch, bind, get, ret. cbn [py_len]. unfold ret.
    destruct (for_range _ _ s) as [[[]|e'] s']; [|done].
    by intros [= _ <-]. }
  assert (train_epoch (VList (xs ++ bad :: more)) y lr s = (Raised e, s1))
    as Hepoch.
  { unfold Model.train_epoch, bind at 1. cbn [py_len]. unfold ret.
    rewrite length_app. cbn [length]. rewrite seq_app, for_range_app.
    rewrite (for_range_ext _ _ (train_sample (VList xs) y lr)).
    - rewrite Hxs. cbn [seq for_range]. unfold bind at 1.
      unfold Model.train_sample at 1. unfold bind at 1. cbn [py_index].
      rewrite list_lookup_middle by done. cbn [of_option]. unfold ret at 1.
      unfold bind at 1.
      by rewrite (reads_run _ s1 (reads_predict_single bad)), Hbad.
    - intros i s' Hi%elem_of_seq. unfold Model.train_sample. cbn [py_index].
      by rewrite !lookup_app_l by lia. }
  unfold Model.train, bind at 1, range_int.
  destruct (Z.to_nat epochs) as [|n] eqn:Hn; [lia|].
  cbn [seq for_range]. unfold bind at 1. by rewrite Hepoch.
Qed.

End model_laws.

(** ** Worked instances of the further laws *)

Import Trials.

Lemma summarize_app_witness :
  survivors greeting ≠ [] ∧
  survivors mixed_items ≠ [] ∧
  joined_length (survivors greeting) + 1 + joined_length (survivors mixed_items)
  ≤ 20000 ∧
  summarize (Some (greeting ++ mixed_items))
  = summarize (Some greeting) ++ newline ++ summarize (Some mixed_items).
Proof.
  assert (survivors greeting ≠ []) as H1 by discriminate.
  assert (survivors mixed_items ≠ []) as H2 by discriminate.
  assert (joined_length (survivors greeting) + 1
          + joined_length (survivors mixed_items) ≤ 20000) as H3
    by (apply Nat.leb_le; vm_compute; reflexivity).
  split; [exact H1|]. split; [exact H2|]. split; [exact H3|].
  exact (summarize_app greeting mixed_items H1 H2 H3).
Defined.

Lemma strategy_inputs_uncut_witness :
  text_list_strategy greeting_survivors = true ∧
  summarize (Obj:=Empty_set) (Some (FText <$> greeting_survivors))
  = take 20000 (joined greeting_survivors) ∧
  length (joined greeting_survivors) ≤ 50 * 5000 + 49.
Proof.
  assert (text_list_strategy greeting_survivors = true) as H
    by (vm_compute; reflexivity).
  split; [exact H|].
  exact (strategy_inputs_uncut (Obj:=Empty_set) greeting_survivors H).
Defined.

Lemma summarize_allocates_witness :
  ArgList 1%positive ≠ @ArgNone ∧
  dom (lists (summarize_run (ArgList 1%positive) mixed_world).2)
  = {[ fresh (dom (lists mixed_world)) ]} ∪ dom (lists mixed_world).
Proof.
  assert (ArgList 1%positive ≠ @ArgNone) as H by discriminate.
  split; [exact H|].
  exact (proj2 (summarize_allocates mixed_world (ArgList 1%positive)) H).
Defined.

Lemma generate_vectors_nonpositive_witness :
  (-3 ≤ 0)%Z ∧
  generate_vectors counter_draw (Some (-3)%Z) busy_world
  = (Returned [], busy_world).
Proof.
  assert (-3 ≤ 0)%Z as H by lia.
  split; [exact H|].
  exact (generate_vectors_nonpositive counter_draw (-3) busy_world H).
Defined.

Lemma generate_vectors_prefix_witness :
  (2 ≤ 5)%Z ∧
  rng bare_world = rng busy_world ∧
  ∃ vectors1 w1' vectors2 w2',
    generate_vectors counter_draw (Some 2%Z) bare_world
    = (Returned vectors1, w1') ∧
    generate_vectors counter_draw (Some 5%Z) busy_world
    = (Returned vectors2, w2') ∧
    vector_view w1' <$> vectors1 `prefix_of` vector_view w2' <$> vectors2.
Proof.
  assert (2 ≤ 5)%Z as H by lia.
  split; [exact H|]. split; [reflexivity|].
  exact (generate_vectors_prefix counter_draw 2 5 bare_world busy_world
           H eq_refl).
Defined.

Lemma bounded_draw_in_strategy :
  ∀ g, text_list_strategy (bounded_draw g).1 = true.
Proof.
  intros g. apply text_list_strategy_spec. split.
  - apply Nat.leb_le. reflexivity.
  - assert (7 ≤ 5000) as H7 by (apply Nat.leb_le; vm_compute; reflexivity).
    assert (1 ≤ 5000) as H1 by (apply Nat.leb_le; vm_compute; reflexivity).
    constructor; [|constructor; [exact H1|constructor]].
    unfold py_repeat. rewrite length_replicate.
    pose proof (Nat.mod_upper_bound g 7). lia.
Qed.

Lemma generate_vectors_uncut_witness :
  (∀ g, text_list_strategy (bounded_draw g).1 = true) ∧
  ∃ vectors w',
    generate_vectors bounded_draw (Some 4%Z) bare_world
    = (Returned vectors, w') ∧
    Forall (λ v, ∃ texts,
              lists w' !! input v = Some (FText <$> texts) ∧
              expected_output v = take 20000 (joined texts)) vectors.
Proof.
  split; [exact bounded_draw_in_strategy|].
  exact (generate_vectors_uncut bounded_draw (Some 4%Z) bare_world
           bounded_draw_in_strategy).
Defined.

Lemma main_writes_manifest_witness :
  always (io_log bare_world) (EvMkdir out_dir) = true ∧
  (Script.main counter_draw always noon out_path out_dir dumps bare_world).1
  = inr ().
Proof.
  split; [reflexivity|].
  exact (proj1 (main_writes_manifest counter_draw always noon out_path out_dir
                  dumps bare_world eq_refl eq_refl eq_refl)).
Defined.

Lemma main_stops_at_refusal_witness :
  first_two (io_log bare_world) (Script.mkdir_request out_dir) = true ∧
  first_two (io_log bare_world ++ [Script.mkdir_request out_dir])
    (Script.write_request counter_draw noon out_path dumps bare_world) = true ∧
  first_two
    (io_log bare_world ++
     [Script.mkdir_request out_dir;
      Script.write_request counter_draw noon out_path dumps bare_world])
    (Script.print_request out_path) = false ∧
  (Script.main counter_draw first_two noon out_path out_dir dumps bare_world).1
  = inl (Script.OSError (Script.print_request out_path)) ∧
  io_log
    (Script.main counter_draw first_two noon out_path out_dir dumps bare_world).2
  = io_log bare_world ++
    [Script.mkdir_request out_dir;
     Script.write_request counter_draw noon out_path dumps bare_world].
Proof.
  split; [reflexivity|]. split; [reflexivity|]. split; [reflexivity|].
  exact (proj1 (proj2 (proj2
           (main_stops_at_refusal counter_draw first_two noon out_path out_dir
              dumps bare_world)))
           eq_refl eq_refl eq_refl).
Defined.

Section model_instances.
Import Model.

Lemma predict_single_arity_witness :
  length [VNum 1%Z; VNum 2%Z] ≠ length (model_weights fresh_model) ∧
  predict_single fault_note short_sample fresh_model
  = (Raised too_short, fresh_model).
Proof.
  assert (length [VNum 1%Z; VNum 2%Z] ≠ length (model_weights fresh_model))
    as H by (simpl; lia).
  split; [exact H|].
  exact (proj1 (predict_single_arity fault_note [VNum 1%Z; VNum 2%Z]
                  fresh_model) H).
Defined.

Lemma predict_wraps_witness :
  (predict fault_note short_sample fresh_model).1
  = Raised (prediction_failed too_short) ∧
  kind (prediction_failed too_short) = PlainException ∧
  ∃ cause,
    (predict_body fault_note short_sample fresh_model).1 = Raised cause ∧
    message (prediction_failed too_short)
    = lit "Prediction failed: " ++ message cause.
Proof.
  assert ((predict fault_note short_sample fresh_model).1
          = Raised (prediction_failed too_short)) as H by reflexivity.
  split; [exact H|].
  exact (proj2 (predict_wraps fault_note short_sample fresh_model) _ H).
Defined.

Lemma predict_rejects_witness :
  (is_list text_input = false ∨ text_input = VList []) ∧
  predict fault_note text_input fresh_model
  = (Raised (PyError PlainException
               (lit "Prediction failed: Input must be a non-empty list")),
     fresh_model).
Proof.
  assert (is_list text_input = false ∨ text_input = VList []) as H
    by (left; reflexivity).
  split; [exact H|].
  exact (proj1 (predict_rejects fault_note fresh_model) _ H).
Defined.

Lemma predict_batch_witness :
  is_list good_sample = true ∧
  ((predict fault_note (VList [good_sample; good_sample]) fresh_model).1
   = Returned (Batch [0%Z; 0%Z]) ↔
   ∃ ps, Batch [0%Z; 0%Z] = Batch ps ∧
         Forall2 (λ sample p,
                    (predict_single fault_note sample fresh_model).1
                    = Returned p)
                 [good_sample; good_sample] ps).
Proof.
  split; [reflexivity|].
  exact (predict_batch fault_note good_sample [good_sample] fresh_model
           (Batch [0%Z; 0%Z]) eq_refl).
Defined.

Lemma predict_batch_fails_witness :
  good_sample :: [short_sample; good_sample]
  = [good_sample] ++ short_sample :: [good_sample] ∧
  is_list good_sample = true ∧
  Forall (λ sample,
            ∃ p, (predict_single fault_note sample fresh_model).1 = Returned p)
         [good_sample] ∧
  (predict_single fault_note short_sample fresh_model).1 = Raised too_short ∧
  predict fault_note (VList [good_sample; short_sample; good_sample])
    fresh_model
  = (Raised (PyError PlainException
               (lit "Prediction failed: " ++ message too_short)),
     fresh_model).
Proof.
  assert (Forall (λ sample,
            ∃ p, (predict_single fault_note sample fresh_model).1 = Returned p)
            [good_sample]) as Hgood
    by (constructor; [by exists 0%Z|constructor]).
  split; [reflexivity|]. split; [reflexivity|]. split; [exact Hgood|].
  split; [reflexivity|].
  exact (predict_batch_fails fault_note good_sample [short_sample; good_sample]
           [good_sample] short_sample [good_sample] fresh_model too_short
           eq_refl eq_refl Hgood eq_refl).
Defined.

Lemma train_nothing_to_do_witness :
  ((7 ≤ 0)%Z ∨ no_samples = VList [] ∨ no_samples = VStr []) ∧
  train fault_note no_samples VNone 7 2%Z fresh_model
  = (Returned (Trained 7 (model_weights fresh_model) (model_bias fresh_model)),
     fresh_model).
Proof.
  assert ((7 ≤ 0)%Z ∨ no_samples = VList [] ∨ no_samples = VStr []) as H
    by (right; left; reflexivity).
  split; [exact H|].
  exact (train_nothing_to_do fault_note no_samples VNone 7 2%Z fresh_model H).
Defined.

Lemma train_no_rollback_witness :
  (1 ≤ 3)%Z ∧
  train fault_note (VList [good_sample]) targets 1 2%Z fresh_model
  = (Returned (Trained 1 [11%Z; 21%Z; 31%Z] 11%Z), trained_model) ∧
  (predict_single fault_note short_sample trained_model).1 = Raised too_short ∧
  train fault_note (VList ([good_sample] ++ short_sample :: [good_sample]))
    targets 3 2%Z fresh_model
  = (Raised too_short, trained_model).
Proof.
  assert (1 ≤ 3)%Z as H1 by lia.
  assert (train fault_note (VList [good_sample]) targets 1 2%Z fresh_model
          = (Returned (Trained 1 [11%Z; 21%Z; 31%Z] 11%Z), trained_model))
    as H2 by (vm_compute; reflexivity).
  assert ((predict_single fault_note short_sample trained_model).1
          = Raised too_short) as H3 by reflexivity.
  split; [exact H1|]. split; [exact H2|]. split; [exact H3|].
  exact (train_no_rollback fault_note [good_sample] short_sample [good_sample]
           targets 3 2%Z fresh_model _ trained_model too_short H1 H2 H3).
Defined.

End model_instances.
